(** * Zoom presence binary sensor: model of
      [custom_components/zoom/binary_sensor.py]

    The entity classes of the module are embedded as functions over an explicit
    entity record.  Every callback ([_async_update], [async_added_to_hass],
    [async_event_received]) is a computation in a small monad that threads the
    entity, accumulates the externally visible effects (log records, calls of
    the profile endpoint, reads of the restore store, state writes) and may end
    in a raised exception.  As in Python, the assignments made before an
    exception is raised are kept.

    Each callback is modelled as one atomic step: the entity's own callbacks
    are not re-entered while one of them is suspended on the endpoint. *)

From Stdlib Require Import String Ascii List Bool ZArith.
Import ListNotations.
Set Warnings "-register-all".
Local Open Scope string_scope.
Local Open Scope list_scope.

(** ** Python values *)

(** The values that travel through the module: decoded JSON (event payloads,
    profiles) and the attributes of the entity. *)
Inductive value : Type :=
| VNone
| VBool (b : bool)
| VInt (z : Z)
| VStr (s : string)
| VList (items : list value)
| VDict (items : list (string * value)).

(** A [dict] with string keys; a key occurs at most once, lookup takes the
    first binding. *)
Definition dict := list (string * value).

Fixpoint dict_get (d : dict) (k : string) : option value :=
  match d with
  | [] => None
  | (k', v) :: d' => if String.eqb k' k then Some v else dict_get d' k
  end.

(** [d.get(k)] and [d.get(k, default)]. *)
Definition get_default (d : dict) (k : string) (default : value) : value :=
  match dict_get d k with
  | Some v => v
  | None => default
  end.

Definition get (d : dict) (k : string) : value := get_default d k VNone.

(** Truth value of an object, as tested by [if], [and], [or] and [not]. *)
Definition truthy (v : value) : bool :=
  match v with
  | VNone => false
  | VBool b => b
  | VInt z => negb (Z.eqb z 0)
  | VStr s => negb (String.eqb s "")
  | VList l => match l with [] => false | _ => true end
  | VDict d => match d with [] => false | _ => true end
  end.

Definition dict_truthy (d : dict) : bool := truthy (VDict d).

(** [a and b], [a or b]: the result is one of the operands. *)
Definition py_and (a b : value) : value := if truthy a then b else a.
Definition py_or (a b : value) : value := if truthy a then a else b.

(** [v == s] for a string [s]: only a string compares equal to a string. *)
Definition eq_str (v : value) (s : string) : bool :=
  match v with
  | VStr t => String.eqb t s
  | _ => false
  end.

(** [v in statuses] for a list of strings. *)
Definition py_in (v : value) (statuses : list string) : bool :=
  existsb (eq_str v) statuses.

(** ** Exceptions and results *)

Inductive exn : Type :=
| KeyError (key : string)
| AttributeError
| TypeError
| HTTPUnauthorized
| OtherError.

Inductive result (A : Type) : Type :=
| Ok (a : A)
| Raise (e : exn).
Arguments Ok {A} a.
Arguments Raise {A} e.

(** [d[k]] *)
Definition subscript (d : dict) (k : string) : result value :=
  match dict_get d k with
  | Some v => Ok v
  | None => Raise (KeyError k)
  end.

(** [get_data_from_path]: the loop rebinds [data] to [data.get(val, {})]; the
    method [get] exists on dictionaries only.  The first argument is the
    current binding of [data]. *)
Fixpoint get_data_from_path (data : value) (path : list string) : result value :=
  match path with
  | [] => match data with
          | VStr s => Ok (VStr s)
          | _ => Ok VNone
          end
  | val :: path' =>
      match data with
      | VDict d => get_data_from_path (get_default d val (VDict [])) path'
      | _ => Raise AttributeError
      end
  end.

(** [x.lower()] for a value [x]: only strings have the method. *)
Definition lower_of (lower : string -> string) (v : value) : result string :=
  match v with
  | VStr s => Ok (lower s)
  | _ => Raise AttributeError
  end.

(** ** The entity *)

(** The class of the entity object. *)
Inductive sensor_class : Type :=
| ZoomBaseBinarySensor
| ZoomAuthenticatedUserBinarySensor
| ZoomContactUserBinarySensor (_id : value).

(** What the entity reads from its [ConfigEntry]: [entry_id], the mapping
    [data], and the list stored in [options] under
    [CONF_CONNECTIVITY_ON_STATUSES] ([async_setup_entry] installs the default
    list whenever the entry has no options). *)
Record ConfigEntry : Type := {
  entry_id : string;
  data : dict;
  options_on_statuses : list string
}.

Record entity : Type := {
  class : sensor_class;
  _config_entry : ConfigEntry;
  (** [self._coordinator.data] *)
  _coordinator_data : option dict;
  _profile : option dict;
  _zoom_event_state : value;
  _is_on : value;
  _attr_available : bool
}.

Definition set_profile (p : option dict) (s : entity) : entity :=
  {| class := class s; _config_entry := _config_entry s;
     _coordinator_data := _coordinator_data s; _profile := p;
     _zoom_event_state := _zoom_event_state s; _is_on := _is_on s;
     _attr_available := _attr_available s |}.

Definition set_zoom_event_state (v : value) (s : entity) : entity :=
  {| class := class s; _config_entry := _config_entry s;
     _coordinator_data := _coordinator_data s; _profile := _profile s;
     _zoom_event_state := v; _is_on := _is_on s;
     _attr_available := _attr_available s |}.

Definition set_is_on (v : value) (s : entity) : entity :=
  {| class := class s; _config_entry := _config_entry s;
     _coordinator_data := _coordinator_data s; _profile := _profile s;
     _zoom_event_state := _zoom_event_state s; _is_on := v;
     _attr_available := _attr_available s |}.

Definition set_attr_available (b : bool) (s : entity) : entity :=
  {| class := class s; _config_entry := _config_entry s;
     _coordinator_data := _coordinator_data s; _profile := _profile s;
     _zoom_event_state := _zoom_event_state s; _is_on := _is_on s;
     _attr_available := b |}.

(** [__init__] *)
Definition init (c : sensor_class) (config_entry : ConfigEntry)
    (coordinator_data : option dict) : entity :=
  {| class := c; _config_entry := config_entry;
     _coordinator_data := coordinator_data; _profile := None;
     _zoom_event_state := VNone; _is_on := VBool false;
     _attr_available := true |}.

(** ** Effects *)

Inductive level : Type := DEBUG | INFO | WARNING.

(** The log records of the module, one constructor per call site. *)
Inductive message : Type :=
| ReachZoomAgain
| UnableToReachZoom
| RetrievedInitialStatus (status : value)
| UnauthorizedRestoring
| ErrorRetrievingRestoring
| IdUnknownRestoring
| SetZoomState (zoom_event_state is_on : value).

Inductive subscription : Type :=
| UpdateListener
| OptionsSignal
| CoordinatorListener
| TimeInterval
| ZoomEventListener.

Inductive effect : Type :=
| Log (l : level) (m : message)
| GetContactUserProfile (id : value)
| GetLastState
| WriteHaState
| OnRemove (sub : subscription).

(** ** The monad of the callbacks *)

Definition M (A : Type) : Type := entity -> entity * list effect * result A.

Definition ret {A} (a : A) : M A := fun s => (s, [], Ok a).

Definition bind {A B} (m : M A) (f : A -> M B) : M B :=
  fun s =>
    match m s with
    | (s1, t1, Ok a) =>
        match f a s1 with
        | (s2, t2, r) => (s2, t1 ++ t2, r)
        end
    | (s1, t1, Raise e) => (s1, t1, Raise e)
    end.

Definition raise {A} (e : exn) : M A := fun s => (s, [], Raise e).

Definition lift {A} (r : result A) : M A := fun s => (s, [], r).

Definition gets {A} (f : entity -> A) : M A := fun s => (s, [], Ok (f s)).

Definition modify (f : entity -> entity) : M unit := fun s => (f s, [], Ok tt).

Definition emit (e : effect) : M unit := fun s => (s, [e], Ok tt).

(** [try: body  except: handler] *)
Definition try_except {A} (body : M A) (handler : exn -> M A) : M A :=
  fun s =>
    match body s with
    | (s1, t1, Ok a) => (s1, t1, Ok a)
    | (s1, t1, Raise e) =>
        match handler e s1 with
        | (s2, t2, r) => (s2, t1 ++ t2, r)
        end
    end.

Declare Scope py_scope.
Delimit Scope py_scope with py.
Notation "x <- m ;; k" := (bind m (fun x => k))
  (at level 61, m at next level, right associativity) : py_scope.
Notation "m ;; k" := (bind m (fun _ => k))
  (at level 61, right associativity) : py_scope.
Local Open Scope py_scope.

Definition final_state {A} (r : entity * list effect * result A) : entity :=
  fst (fst r).
Definition trace {A} (r : entity * list effect * result A) : list effect :=
  snd (fst r).
Definition outcome {A} (r : entity * list effect * result A) : result A :=
  snd r.

(** ** Properties of the entity *)

(** [a or b] for an optional dictionary [a]: [None] and the empty dictionary
    are falsy. *)
Definition dict_or (a : option dict) (b : dict) : dict :=
  match a with
  | Some d => if dict_truthy d then d else b
  | None => b
  end.

(** [profile]: [self._profile or {}], overridden by the authenticated-user
    class with [self._profile or self._coordinator.data or {}]. *)
Definition profile (s : entity) : dict :=
  match class s with
  | ZoomAuthenticatedUserBinarySensor =>
      dict_or (_profile s) (dict_or (_coordinator_data s) [])
  | _ => dict_or (_profile s) []
  end.

Section Constants.

(** [homeassistant.const.CONF_ID] and the constants of [.const]. *)
Variable CONF_ID : string.
Variable ATTR_EVENT : string.
Variable CONNECTIVITY_EVENT : string.
Variable CONNECTIVITY_ID : list string.
Variable CONNECTIVITY_STATUS : list string.

(** [str.lower] *)
Variable lower : string -> string.

(** [id]: overridden by the contact class. *)
Definition id (s : entity) : value :=
  match class s with
  | ZoomContactUserBinarySensor _id => _id
  | _ => py_or (get (data (_config_entry s)) CONF_ID) (get (profile s) "id")
  end.

Definition first_name (s : entity) : value := get (profile s) "first_name".
Definition last_name (s : entity) : value := get (profile s) "last_name".
Definition email (s : entity) : value := get (profile s) "email".
Definition account_id (s : entity) : value := get (profile s) "account_id".

Definition is_on (s : entity) : value := _is_on s.
Definition available (s : entity) : bool := _attr_available s.

Definition icon (s : entity) : string :=
  if truthy (is_on s) then "mdi:video" else "mdi:video-off".

Definition assumed_state (s : entity) : bool := negb (available s).

(** [extra_state_attributes]: the dictionary is built in insertion order;
    [None] stands for Python's [None]. *)
Definition extra_state_attributes (s : entity) : option dict :=
  let props := [("id", id s); ("first_name", first_name s);
                ("last_name", last_name s); ("email", email s);
                ("account_id", account_id s)] in
  let data := filter (fun kv => truthy (snd kv)) props in
  let data := if truthy (_zoom_event_state s)
              then data ++ [("status", _zoom_event_state s)]
              else data in
  match data with
  | [] => None
  | _ => Some data
  end.

(** ** Methods *)

(** [_set_state] *)
Definition _set_state (zoom_event_state : value) : M unit :=
  modify (set_zoom_event_state zoom_event_state) ;;
  zes <- gets _zoom_event_state ;;
  statuses <- gets (fun s => options_on_statuses (_config_entry s)) ;;
  modify (set_is_on (py_and zes (VBool (py_in zes statuses)))) ;;
  is_on' <- gets _is_on ;;
  emit (Log DEBUG (SetZoomState zoom_event_state is_on')).

(** What one call of the profile endpoint does: it returns a profile or
    raises. *)
Inductive fetch_outcome : Type :=
| Fetched (profile : dict)
| FetchFails (e : exn).

(** [self._api.async_get_contact_user_profile(id)] *)
Definition async_get_contact_user_profile (o : fetch_outcome) (id : value)
    : M dict :=
  emit (GetContactUserProfile id) ;;
  match o with
  | Fetched p => ret p
  | FetchFails e => raise e
  end.

(** [self._profile[key]] *)
Definition profile_subscript (key : string) : M value :=
  p <- gets _profile ;;
  match p with
  | Some d => lift (subscript d key)
  | None => raise TypeError
  end.

(** [_async_update]; the argument [now] is not used by the method.  [o] is the
    behaviour of the endpoint should the method call it. *)
Definition _async_update (o : fetch_outcome) : M unit :=
  i <- gets id ;;
  if truthy i then
    try_except
      (i' <- gets id ;;
       p <- async_get_contact_user_profile o i' ;;
       modify (set_profile (Some p)) ;;
       a <- gets _attr_available ;;
       if negb a then
         emit (Log INFO ReachZoomAgain) ;;
         status <- profile_subscript "presence_status" ;;
         _set_state status ;;
         modify (set_attr_available true) ;;
         emit WriteHaState
       else ret tt)
      (fun _ =>
         a <- gets _attr_available ;;
         if a then
           emit (Log WARNING UnableToReachZoom) ;;
           modify (set_attr_available false) ;;
           emit WriteHaState
         else ret tt)
  else ret tt.

(** The object returned by [async_get_last_state]. *)
Record State : Type := { state : value }.

(** [_restore_state]; [last] is what the restore store holds for the entity. *)
Definition _restore_state (last : option State) : M unit :=
  emit GetLastState ;;
  match last with
  | Some restored_state => modify (set_is_on (state restored_state))
  | None => ret tt
  end.

(** The entity after [_restore_state]. *)
Definition restored (last : option State) (s : entity) : entity :=
  match last with
  | Some restored_state => set_is_on (state restored_state) s
  | None => s
  end.

(** [ZoomBaseBinarySensor.async_added_to_hass] *)
Definition base_async_added_to_hass (o : fetch_outcome) (last : option State)
    : M unit :=
  emit (OnRemove UpdateListener) ;;
  emit (OnRemove OptionsSignal) ;;
  emit (OnRemove CoordinatorListener) ;;
  emit (OnRemove TimeInterval) ;;
  i <- gets id ;;
  if truthy i then
    try_except
      (i' <- gets id ;;
       p <- async_get_contact_user_profile o i' ;;
       modify (set_profile (Some p)) ;;
       status <- profile_subscript "presence_status" ;;
       emit (Log DEBUG (RetrievedInitialStatus status)) ;;
       _set_state status ;;
       emit WriteHaState)
      (fun e =>
         match e with
         | HTTPUnauthorized =>
             emit (Log DEBUG UnauthorizedRestoring) ;;
             _restore_state last
         | _ =>
             emit (Log WARNING ErrorRetrievingRestoring) ;;
             _restore_state last
         end)
  else
    emit (Log DEBUG IdUnknownRestoring) ;;
    _restore_state last.

(** [async_added_to_hass] of the class of the entity: the authenticated-user
    class extends the base method with the subscription to the event bus. *)
Definition async_added_to_hass (o : fetch_outcome) (last : option State)
    : M unit :=
  c <- gets class ;;
  match c with
  | ZoomAuthenticatedUserBinarySensor =>
      base_async_added_to_hass o last ;;
      emit (OnRemove ZoomEventListener)
  | _ => base_async_added_to_hass o last
  end.

(** [async_event_received]; [status] is [event.data]. *)
Definition async_event_received (status : dict) : M unit :=
  entry <- lift (subscript status "ha_config_entry_id") ;;
  own_entry <- gets (fun s => entry_id (_config_entry s)) ;;
  if eq_str entry own_entry then
    ev <- lift (subscript status ATTR_EVENT) ;;
    if eq_str ev CONNECTIVITY_EVENT then
      ev_id <- lift (get_data_from_path (VDict status) CONNECTIVITY_ID) ;;
      ev_id_lower <- lift (lower_of lower ev_id) ;;
      i <- gets id ;;
      id_lower <- lift (lower_of lower i) ;;
      if String.eqb ev_id_lower id_lower then
        new_status <- lift (get_data_from_path (VDict status) CONNECTIVITY_STATUS) ;;
        _set_state new_status ;;
        emit WriteHaState
      else ret tt
    else ret tt
  else ret tt.

(** ** Runs of the poller *)

(** The timer fires once per element of [os]. *)
Fixpoint polls (os : list fetch_outcome) : M unit :=
  match os with
  | [] => ret tt
  | o :: os' => _async_update o ;; polls os'
  end.

(** [id] is resolvable at the start of every poll of the run. *)
Fixpoint id_resolvable_throughout (s : entity) (os : list fetch_outcome) : bool :=
  match os with
  | [] => true
  | o :: os' =>
      truthy (id s)
      && id_resolvable_throughout (final_state (_async_update o s)) os'
  end.

(** ** Observations on traces and on runs of poll outcomes *)

Definition is_warning_log (e : effect) : bool :=
  match e with
  | Log WARNING UnableToReachZoom => true
  | _ => false
  end.

Definition is_recovery_log (e : effect) : bool :=
  match e with
  | Log INFO ReachZoomAgain => true
  | _ => false
  end.

Definition is_log (e : effect) : bool :=
  match e with
  | Log _ _ => true
  | _ => false
  end.

Definition is_state_write (e : effect) : bool :=
  match e with
  | WriteHaState => true
  | _ => false
  end.

Definition is_fetch (e : effect) : bool :=
  match e with
  | GetContactUserProfile _ => true
  | _ => false
  end.

(** The status mapper leaves its debug record in the trace. *)
Definition is_set_state (e : effect) : bool :=
  match e with
  | Log DEBUG (SetZoomState _ _) => true
  | _ => false
  end.

Definition count (p : effect -> bool) (t : list effect) : nat :=
  length (filter p t).

Definition succeeds (o : fetch_outcome) : bool :=
  match o with
  | Fetched _ => true
  | FetchFails _ => false
  end.

(** The profile returned by the endpoint carries a [presence_status] entry. *)
Definition has_presence_status (o : fetch_outcome) : bool :=
  match o with
  | Fetched p => match dict_get p "presence_status" with
                 | Some _ => true
                 | None => false
                 end
  | FetchFails _ => true
  end.

(** Edges of a sequence of poll outcomes.  [prev] tells whether the provider
    was reachable before the first outcome of the sequence: it is the value of
    [available] when the run starts. *)
Fixpoint failure_after_success (prev : bool) (os : list fetch_outcome) : nat :=
  match os with
  | [] => 0
  | o :: os' =>
      (if prev && negb (succeeds o) then 1 else 0)
      + failure_after_success (succeeds o) os'
  end.

Fixpoint success_after_failure (prev : bool) (os : list fetch_outcome) : nat :=
  match os with
  | [] => 0
  | o :: os' =>
      (if negb prev && succeeds o then 1 else 0)
      + success_after_failure (succeeds o) os'
  end.

(** ** Payloads, callbacks and further observations *)

(** [d[k] = v] *)
Fixpoint dict_set (d : dict) (k : string) (v : value) : dict :=
  match d with
  | [] => [(k, v)]
  | (k', v') :: d' =>
      if String.eqb k' k then (k', v) :: d' else (k', v') :: dict_set d' k v
  end.

(** The payload [d] with [leaf] stored under the path [k :: rest]; the
    dictionaries on the way are created when they are absent. *)
Fixpoint put_path (d : dict) (k : string) (rest : list string) (leaf : value)
    : dict :=
  match rest with
  | [] => dict_set d k leaf
  | k' :: rest' =>
      let sub := match dict_get d k with
                 | Some (VDict sub) => sub
                 | _ => []
                 end in
      dict_set d k (VDict (put_path sub k' rest' leaf))
  end.

(** [_async_update_options] *)
Definition _async_update_options : M unit := emit WriteHaState.

(** The callbacks the platform invokes on an attached entity. *)
Inductive callback : Type :=
| TimerFired (o : fetch_outcome)
| EventReceived (status : dict)
| OptionsUpdated.

Definition dispatch (c : callback) : M unit :=
  match c with
  | TimerFired o => _async_update o
  | EventReceived status => async_event_received status
  | OptionsUpdated => _async_update_options
  end.

(** The callbacks run one after the other; when one raises, the next one
    finds the entity as the failed one left it. *)
Fixpoint run (cs : list callback) (s : entity) : entity * list effect :=
  match cs with
  | [] => (s, [])
  | c :: cs' =>
      let r := dispatch c s in
      let r' := run cs' (final_state r) in
      (fst r', trace r ++ snd r')
  end.

Definition is_timer (c : callback) : bool :=
  match c with
  | TimerFired _ => true
  | _ => false
  end.

(** The sensor reads as on exactly when the last recorded status is truthy
    and one of the connected statuses. *)
Definition reads_on_iff_connected (s : entity) : bool :=
  Bool.eqb (truthy (_is_on s))
    (truthy (_zoom_event_state s)
     && py_in (_zoom_event_state s) (options_on_statuses (_config_entry s))).

(** The id does not depend on the profile: the contact class holds a truthy
    [_id], the other classes a truthy [CONF_ID] entry in [data]. *)
Definition id_configured (s : entity) : bool :=
  match class s with
  | ZoomContactUserBinarySensor _id => truthy _id
  | _ => truthy (get (data (_config_entry s)) CONF_ID)
  end.

(** [getattr(self, prop)] for the properties listed by
    [extra_state_attributes]. *)
Definition getattr (s : entity) (prop : string) : value :=
  if String.eqb prop "id" then id s
  else if String.eqb prop "first_name" then first_name s
  else if String.eqb prop "last_name" then last_name s
  else if String.eqb prop "email" then email s
  else if String.eqb prop "account_id" then account_id s
  else VNone.

Definition is_get_last_state (e : effect) : bool :=
  match e with
  | GetLastState => true
  | _ => false
  end.

Definition is_registration (e : effect) : bool :=
  match e with
  | OnRemove _ => true
  | _ => false
  end.

(** The subscriptions of the base class, in the order of registration. *)
Definition base_registrations : list effect :=
  [OnRemove UpdateListener; OnRemove OptionsSignal;
   OnRemove CoordinatorListener; OnRemove TimeInterval].

Definition is_authenticated (c : sensor_class) : bool :=
  match c with
  | ZoomAuthenticatedUserBinarySensor => true
  | _ => false
  end.

Definition is_str (v : value) : bool :=
  match v with
  | VStr _ => true
  | _ => false
  end.

(** The properties [extra_state_attributes] loops over. *)
Definition attribute_props : list string :=
  ["id"; "first_name"; "last_name"; "email"; "account_id"].

(** The dictionary [extra_state_attributes] builds before it decides between
    returning it and returning [None]. *)
Definition attributes_built (attrs : option dict) : dict :=
  match attrs with
  | Some d => d
  | None => []
  end.

(** The subscription added by the class of the entity on top of the base
    ones. *)
Definition class_registrations (c : sensor_class) : list effect :=
  if is_authenticated c then [OnRemove ZoomEventListener] else [].

Definition is_dict (v : value) : bool :=
  match v with
  | VDict _ => true
  | _ => false
  end.

(** ** Concrete configurations *)

(** Sample values for the constants and lowering of the ASCII letters, used
    to run the model on concrete inputs. *)
Definition sample_CONF_ID : string := "id".
Definition sample_ATTR_EVENT : string := "event".
Definition sample_CONNECTIVITY_EVENT : string := "user.presence_status_updated".
Definition sample_CONNECTIVITY_ID : list string := ["payload"; "object"; "id"].
Definition sample_CONNECTIVITY_STATUS : list string :=
  ["payload"; "object"; "presence_status"].

Definition lower_ascii (c : ascii) : ascii :=
  let n := nat_of_ascii c in
  if Nat.leb 65 n && Nat.leb n 90 then ascii_of_nat (n + 32) else c.

Fixpoint ascii_lower (s : string) : string :=
  match s with
  | EmptyString => EmptyString
  | String c s' => String (lower_ascii c) (ascii_lower s')
  end.

Definition statuses_with_empty : ConfigEntry :=
  {| entry_id := "entry-1"; data := [("id", VStr "AbC")];
     options_on_statuses := ["Available"; ""] |}.

Definition home : ConfigEntry :=
  {| entry_id := "entry-1"; data := [("id", VStr "AbC")];
     options_on_statuses := ["Available"; "In Meeting"] |}.

(** An entry without a configured id. *)
Definition anonymous : ConfigEntry :=
  {| entry_id := "entry-2"; data := [];
     options_on_statuses := ["Available"; "In Meeting"] |}.

Definition fresh : entity := init ZoomAuthenticatedUserBinarySensor home None.

Definition unreachable : entity := set_attr_available false fresh.

Definition nameless : entity :=
  init ZoomAuthenticatedUserBinarySensor anonymous None.

Definition in_meeting : dict :=
  [("id", VStr "AbC"); ("first_name", VStr "Ann");
   ("presence_status", VStr "In Meeting")].

Definition persisted_on : option State := Some {| state := VBool true |}.

Definition presence_event (entry user status : string) : dict :=
  [("ha_config_entry_id", VStr entry);
   ("event", VStr "user.presence_status_updated");
   ("payload", VDict [("object", VDict [("id", VStr user);
                                        ("presence_status", VStr status)])])].

(** A steady entity whose fetched profile differs from the stored one. *)
Definition ann : entity :=
  {| class := ZoomAuthenticatedUserBinarySensor;
     _config_entry := anonymous;
     _coordinator_data := None;
     _profile := Some [("id", VStr "u1"); ("first_name", VStr "Ann");
                       ("last_name", VStr "Lee"); ("email", VStr "ann@example.org");
                       ("account_id", VStr "a1")];
     _zoom_event_state := VStr "Available";
     _is_on := VBool true;
     _attr_available := true |}.

Definition renamed_profile : dict :=
  [("id", VStr "u2"); ("first_name", VStr "Bob"); ("last_name", VStr "Ray");
   ("email", VStr "bob@example.org"); ("account_id", VStr "a2");
   ("presence_status", VStr "Away")].

(** ** Proof automation *)

Ltac run_monad :=
  cbv [bind ret raise lift gets modify emit try_except
       async_get_contact_user_profile profile_subscript subscript lower_of
       final_state trace outcome];
  simpl.

(** ** Basic facts *)

Lemma eq_str_true (v : value) (s : string) :
  eq_str v s = true <-> v = VStr s.
Proof.
  destruct v; simpl; split; intros H; try discriminate.
  - apply String.eqb_eq in H. now subst.
  - injection H as ->. apply String.eqb_refl.
Qed.

Lemma count_app (p : effect -> bool) (t1 t2 : list effect) :
  count p (t1 ++ t2) = count p t1 + count p t2.
Proof.
  unfold count. rewrite filter_app. apply length_app.
Qed.

Lemma bind_run {A B} (m : M A) (f : A -> M B) (s s1 : entity)
    (t1 : list effect) (a : A) :
  m s = (s1, t1, Ok a) ->
  bind m f s = (final_state (f a s1), t1 ++ trace (f a s1), outcome (f a s1)).
Proof.
  intros H. unfold bind. rewrite H.
  destruct (f a s1) as [[s2 t2] r]. reflexivity.
Qed.

(** The status mapper, in closed form. *)
Lemma _set_state_run (zes : value) (s : entity) :
  _set_state zes s =
  (set_is_on (py_and zes (VBool (py_in zes (options_on_statuses (_config_entry s)))))
     (set_zoom_event_state zes s),
   [Log DEBUG (SetZoomState zes
      (py_and zes (VBool (py_in zes (options_on_statuses (_config_entry s))))))],
   Ok tt).
Proof. reflexivity. Qed.

(** *** One poll, case by case *)

Lemma _async_update_unresolved (o : fetch_outcome) (s : entity) :
  truthy (id s) = false ->
  _async_update o s = (s, [], Ok tt).
Proof.
  intros Hid. unfold _async_update. run_monad. rewrite Hid. reflexivity.
Qed.

Lemma _async_update_failure_edge (e : exn) (s : entity) :
  truthy (id s) = true ->
  _attr_available s = true ->
  _async_update (FetchFails e) s =
  (set_attr_available false s,
   [GetContactUserProfile (id s); Log WARNING UnableToReachZoom; WriteHaState],
   Ok tt).
Proof.
  intros Hid Hav. unfold _async_update. run_monad.
  rewrite Hid, Hav. reflexivity.
Qed.

Lemma _async_update_failure_silent (e : exn) (s : entity) :
  truthy (id s) = true ->
  _attr_available s = false ->
  _async_update (FetchFails e) s = (s, [GetContactUserProfile (id s)], Ok tt).
Proof.
  intros Hid Hav. unfold _async_update. run_monad.
  rewrite Hid, Hav. reflexivity.
Qed.

Lemma _async_update_steady (p : dict) (s : entity) :
  truthy (id s) = true ->
  _attr_available s = true ->
  _async_update (Fetched p) s =
  (set_profile (Some p) s, [GetContactUserProfile (id s)], Ok tt).
Proof.
  intros Hid Hav. unfold _async_update. run_monad.
  rewrite Hid, Hav. reflexivity.
Qed.

Lemma _async_update_recovery (p : dict) (v : value) (s : entity) :
  truthy (id s) = true ->
  _attr_available s = false ->
  dict_get p "presence_status" = Some v ->
  _async_update (Fetched p) s =
  (set_attr_available true
     (final_state (_set_state v (set_profile (Some p) s))),
   [GetContactUserProfile (id s); Log INFO ReachZoomAgain]
     ++ trace (_set_state v (set_profile (Some p) s)) ++ [WriteHaState],
   Ok tt).
Proof.
  intros Hid Hav Hps. unfold _async_update. run_monad.
  rewrite Hid, Hav. simpl. rewrite Hps. reflexivity.
Qed.

(** The subscript [self._profile["presence_status"]] raises after the
    recovery record has been logged; the bare [except] swallows the error. *)
Lemma _async_update_recovery_no_status (p : dict) (s : entity) :
  truthy (id s) = true ->
  _attr_available s = false ->
  dict_get p "presence_status" = None ->
  _async_update (Fetched p) s =
  (set_profile (Some p) s,
   [GetContactUserProfile (id s); Log INFO ReachZoomAgain], Ok tt).
Proof.
  intros Hid Hav Hps. unfold _async_update. run_monad.
  rewrite Hid, Hav. simpl. rewrite Hps. simpl. rewrite Hav. reflexivity.
Qed.

(** The poller swallows every exception. *)
Lemma _async_update_returns (o : fetch_outcome) (s : entity) :
  outcome (_async_update o s) = Ok tt.
Proof.
  destruct (truthy (id s)) eqn:Hid.
  - destruct (_attr_available s) eqn:Hav; destruct o as [p | e].
    + now rewrite _async_update_steady.
    + now rewrite _async_update_failure_edge.
    + destruct (dict_get p "presence_status") as [v |] eqn:Hps.
      * now rewrite (_async_update_recovery p v).
      * now rewrite _async_update_recovery_no_status.
    + now rewrite _async_update_failure_silent.
  - now rewrite _async_update_unresolved.
Qed.

(** *** The status mapper *)

(** C1 (as the code has it): after [_set_state S], [zoom_event_state] is [S];
    [is_on] is the boolean [S in C] when [S] is truthy, and is [S] itself, a
    falsy value, when [S] is [None] or the empty string; the sensor reads as
    on exactly when [S] is truthy and a member of [C].  Nothing else in the
    entity changes and the call returns. *)
Theorem set_state_spec (S : value) (s : entity) :
  let C := options_on_statuses (_config_entry s) in
  let s' := final_state (_set_state S s) in
  _zoom_event_state s' = S
  /\ is_on s' = (if truthy S then VBool (py_in S C) else S)
  /\ truthy (is_on s') = truthy S && py_in S C
  /\ available s' = available s
  /\ _profile s' = _profile s
  /\ _config_entry s' = _config_entry s
  /\ outcome (_set_state S s) = Ok tt.
Proof.
  rewrite _set_state_run. unfold final_state, outcome, is_on, available, py_and.
  simpl. repeat split.
  destruct (truthy S) eqn:E; simpl; [reflexivity | exact E].
Qed.

(** *** The poller *)

Lemma polls_cons (o : fetch_outcome) (os : list fetch_outcome) (s : entity) :
  polls (o :: os) s =
  (final_state (polls os (final_state (_async_update o s))),
   trace (_async_update o s)
     ++ trace (polls os (final_state (_async_update o s))),
   outcome (polls os (final_state (_async_update o s)))).
Proof.
  pose proof (_async_update_returns o s) as Hr.
  destruct (_async_update o s) as [[s1 t1] r] eqn:E.
  unfold outcome in Hr. simpl in Hr. subst r.
  simpl polls. now rewrite (bind_run _ _ _ _ _ _ E).
Qed.

Lemma trace_polls_cons (o : fetch_outcome) (os : list fetch_outcome)
    (s : entity) :
  trace (polls (o :: os) s) =
  trace (_async_update o s)
    ++ trace (polls os (final_state (_async_update o s))).
Proof. now rewrite polls_cons. Qed.

(** One poll with [id] resolvable: [available] afterwards records whether the
    fetch succeeded, and a record is logged on an edge only. *)
Lemma poll_step (o : fetch_outcome) (s : entity) :
  truthy (id s) = true ->
  has_presence_status o = true ->
  _attr_available (final_state (_async_update o s)) = succeeds o
  /\ count is_warning_log (trace (_async_update o s))
     = (if _attr_available s && negb (succeeds o) then 1 else 0)
  /\ count is_recovery_log (trace (_async_update o s))
     = (if negb (_attr_available s) && succeeds o then 1 else 0).
Proof.
  intros Hid Hwf.
  destruct (_attr_available s) eqn:Hav; destruct o as [p | e]; simpl in *.
  - rewrite _async_update_steady by assumption. now simpl.
  - rewrite _async_update_failure_edge by assumption. now simpl.
  - destruct (dict_get p "presence_status") as [v |] eqn:Hps; [| discriminate].
    rewrite (_async_update_recovery p v) by assumption.
    rewrite _set_state_run. now simpl.
  - rewrite _async_update_failure_silent by assumption. now simpl.
Qed.

(** C2: over a run of polls in which [id] is resolvable at every poll and
    every fetched profile carries [presence_status], the warnings logged are
    as many as the failure-after-success edges and the recovery records as
    many as the success-after-failure edges, the edges being counted from the
    value of [available] at the start of the run; a failed poll while
    [available] is already false logs nothing and writes no state. *)
Theorem availability_edge_triggered (os : list fetch_outcome) (s : entity) :
  id_resolvable_throughout s os = true ->
  forallb has_presence_status os = true ->
  count is_warning_log (trace (polls os s))
    = failure_after_success (available s) os
  /\ count is_recovery_log (trace (polls os s))
     = success_after_failure (available s) os
  /\ (forall (e : exn) (s0 : entity),
        available s0 = false ->
        count is_log (trace (_async_update (FetchFails e) s0)) = 0
        /\ count is_state_write (trace (_async_update (FetchFails e) s0)) = 0
        /\ final_state (_async_update (FetchFails e) s0) = s0).
Proof.
  intros Hres Hwf. rewrite <- and_assoc. split.
  - revert s Hres Hwf. unfold available.
    induction os as [| o os IH]; intros s Hres Hwf.
    + now simpl.
    + simpl in Hres, Hwf.
      apply andb_prop in Hres as [Hid Hres].
      apply andb_prop in Hwf as [Ho Hwf].
      destruct (poll_step o s Hid Ho) as (Hav & Hw & Hr).
      destruct (IH _ Hres Hwf) as [IHw IHr].
      rewrite trace_polls_cons, !count_app, Hw, Hr, IHw, IHr, Hav.
      now simpl.
  - intros e s0 Hav. unfold available in Hav.
    destruct (truthy (id s0)) eqn:Hid.
    + rewrite _async_update_failure_silent by assumption. now simpl.
    + rewrite _async_update_unresolved by assumption. now simpl.
Qed.

(** C5: a poll that fetches a profile while [available] is false makes the
    entity available again, passes the fetched [presence_status] through the
    status mapper, logs one recovery record and writes the state once. *)
Theorem poll_recovers (p : dict) (v : value) (s : entity) :
  truthy (id s) = true ->
  available s = false ->
  dict_get p "presence_status" = Some v ->
  let r := _async_update (Fetched p) s in
  available (final_state r) = true
  /\ _zoom_event_state (final_state r) = v
  /\ is_on (final_state r)
     = is_on (final_state (_set_state v (set_profile (Some p) s)))
  /\ _profile (final_state r) = Some p
  /\ count is_recovery_log (trace r) = 1
  /\ count is_state_write (trace r) = 1
  /\ count is_fetch (trace r) = 1.
Proof.
  intros Hid Hav Hps. unfold available in *. cbv zeta.
  rewrite (_async_update_recovery p v) by assumption.
  rewrite _set_state_run. now simpl.
Qed.

(** C6: a poll that fetches a profile while [available] is true leaves
    [zoom_event_state] and [is_on] as they were, does not go through the
    status mapper and writes no state. *)
Theorem steady_poll_keeps_status (p : dict) (s : entity) :
  available s = true ->
  let r := _async_update (Fetched p) s in
  _zoom_event_state (final_state r) = _zoom_event_state s
  /\ is_on (final_state r) = is_on s
  /\ available (final_state r) = true
  /\ count is_set_state (trace r) = 0
  /\ count is_state_write (trace r) = 0.
Proof.
  intros Hav. unfold available in *. cbv zeta.
  destruct (truthy (id s)) eqn:Hid.
  - rewrite _async_update_steady by assumption. now simpl.
  - rewrite _async_update_unresolved by assumption. now simpl.
Qed.

(** C10: every poll that fetches a profile stores it in [_profile]; when
    [available] is true this is the only change to the entity, so
    [zoom_event_state] and [is_on] stay while the attributes derived from the
    profile follow the new one, and they can all differ from the old ones. *)
Theorem poll_replaces_profile (p : dict) (s : entity) :
  truthy (id s) = true ->
  let s' := final_state (_async_update (Fetched p) s) in
  _profile s' = Some p
  /\ (available s = true ->
      s' = set_profile (Some p) s
      /\ _zoom_event_state s' = _zoom_event_state s
      /\ is_on s' = is_on s)
  /\ (let ann' := final_state (_async_update (Fetched renamed_profile) ann) in
      truthy (id ann) = true /\ available ann = true
      /\ id ann' <> id ann
      /\ first_name ann' <> first_name ann
      /\ last_name ann' <> last_name ann
      /\ email ann' <> email ann
      /\ account_id ann' <> account_id ann
      /\ extra_state_attributes ann' <> extra_state_attributes ann
      /\ _zoom_event_state ann' = _zoom_event_state ann
      /\ is_on ann' = is_on ann).
Proof.
  intros Hid. cbv zeta. split; [| split].
  - destruct (_attr_available s) eqn:Hav.
    + now rewrite _async_update_steady.
    + destruct (dict_get p "presence_status") as [v |] eqn:Hps.
      * rewrite (_async_update_recovery p v) by assumption. now simpl.
      * now rewrite _async_update_recovery_no_status.
  - unfold available. intros Hav. now rewrite _async_update_steady.
  - cbv. repeat split; try reflexivity; discriminate.
Qed.

(** *** Bootstrap and restore *)

Lemma _restore_state_run (last : option State) (s : entity) :
  _restore_state last s = (restored last s, [GetLastState], Ok tt).
Proof. destruct last; reflexivity. Qed.

Lemma base_bootstrap_unresolved (o : fetch_outcome) (last : option State)
    (s : entity) :
  truthy (id s) = false ->
  base_async_added_to_hass o last s =
  (restored last s,
   [OnRemove UpdateListener; OnRemove OptionsSignal;
    OnRemove CoordinatorListener; OnRemove TimeInterval;
    Log DEBUG IdUnknownRestoring; GetLastState],
   Ok tt).
Proof.
  intros Hid. unfold base_async_added_to_hass. run_monad. rewrite Hid.
  simpl. now rewrite _restore_state_run.
Qed.

Lemma base_bootstrap_unauthorized (last : option State) (s : entity) :
  truthy (id s) = true ->
  base_async_added_to_hass (FetchFails HTTPUnauthorized) last s =
  (restored last s,
   [OnRemove UpdateListener; OnRemove OptionsSignal;
    OnRemove CoordinatorListener; OnRemove TimeInterval;
    GetContactUserProfile (id s); Log DEBUG UnauthorizedRestoring;
    GetLastState],
   Ok tt).
Proof.
  intros Hid. unfold base_async_added_to_hass. run_monad. rewrite Hid.
  simpl. now rewrite _restore_state_run.
Qed.

(** The method of the class of the entity runs the base method; the
    authenticated-user class then subscribes to the event bus. *)
Lemma async_added_to_hass_run (o : fetch_outcome) (last : option State)
    (s s1 : entity) (t1 : list effect) :
  base_async_added_to_hass o last s = (s1, t1, Ok tt) ->
  final_state (async_added_to_hass o last s) = s1
  /\ outcome (async_added_to_hass o last s) = Ok tt
  /\ (trace (async_added_to_hass o last s) = t1
      \/ trace (async_added_to_hass o last s)
         = t1 ++ [OnRemove ZoomEventListener]).
Proof.
  intros H. unfold async_added_to_hass. run_monad.
  destruct (class s); rewrite ?H; simpl; rewrite ?app_nil_r; auto.
Qed.

(** C7: bootstrap of an entity whose [id] is unresolved never calls the
    profile endpoint; it reads the restore store once and ends in the restored
    state: [is_on] is the persisted state when there is one, and the entity is
    otherwise as before. *)
Theorem bootstrap_unresolved_id (o : fetch_outcome) (last : option State)
    (s : entity) :
  truthy (id s) = false ->
  let r := async_added_to_hass o last s in
  count is_fetch (trace r) = 0
  /\ final_state r = final_state (_restore_state last s)
  /\ final_state r = restored last s
  /\ In GetLastState (trace r)
  /\ count is_set_state (trace r) = 0
  /\ outcome r = Ok tt.
Proof.
  intros Hid. cbv zeta. rewrite _restore_state_run.
  destruct (async_added_to_hass_run o last s _ _
              (base_bootstrap_unresolved o last s Hid)) as (Hs & Ho & [Ht | Ht]);
    rewrite Hs, Ho, Ht; simpl; repeat split; auto 10.
Qed.

(** C8: bootstrap whose fetch is refused with [HTTPUnauthorized] calls the
    endpoint once, ends in the restored state and does not touch [available],
    which [__init__] sets to true. *)
Theorem bootstrap_unauthorized (last : option State) (s : entity)
    (c : sensor_class) (config_entry : ConfigEntry)
    (coordinator_data : option dict) :
  truthy (id s) = true ->
  let r := async_added_to_hass (FetchFails HTTPUnauthorized) last s in
  final_state r = restored last s
  /\ final_state r = final_state (_restore_state last s)
  /\ available (final_state r) = available s
  /\ available (init c config_entry coordinator_data) = true
  /\ count is_fetch (trace r) = 1
  /\ In GetLastState (trace r)
  /\ outcome r = Ok tt.
Proof.
  intros Hid. cbv zeta. rewrite _restore_state_run.
  destruct (async_added_to_hass_run _ last s _ _
              (base_bootstrap_unauthorized last s Hid)) as (Hs & Ho & [Ht | Ht]);
    rewrite Hs, Ho, Ht; destruct last; simpl; repeat split; auto 10.
Qed.

(** [_restore_state] with a persisted state: the object's [state] is assigned
    to [_is_on] as it is, without a conversion; the status mapper is not run
    and [zoom_event_state], like every other attribute, is left as it was. *)
Lemma restore_state_spec (restored_state : State) (b : bool) (s : entity) :
  let r := _restore_state (Some restored_state) s in
  is_on (final_state r) = state restored_state
  /\ is_on (final_state (_restore_state (Some {| state := VBool b |}) s))
     = VBool b
  /\ _zoom_event_state (final_state r) = _zoom_event_state s
  /\ final_state r = set_is_on (state restored_state) s
  /\ count is_set_state (trace r) = 0
  /\ outcome r = Ok tt.
Proof.
  cbv zeta. rewrite !_restore_state_run. now simpl.
Qed.

(** C9 (the code departs from it): the restore store keeps the state of a
    binary sensor as text.  [_restore_state] assigns that text to [_is_on]
    unconverted, so [is_on] is not a boolean afterwards, and since a non-empty
    text is truthy the sensor reads as on whatever was persisted: restoring
    [off] gives [is_on = "off"], which is truthy, and the video icon.
    [zoom_event_state] is left as it was and the status mapper is not run. *)
Theorem restore_state_text_reads_on (t : string) (s : entity) :
  let r := _restore_state (Some {| state := VStr t |}) s in
  let off := _restore_state (Some {| state := VStr "off" |}) s in
  is_on (final_state r) = VStr t
  /\ is_str (is_on (final_state r)) = true
  /\ truthy (is_on (final_state r)) = negb (String.eqb t "")
  /\ icon (final_state r)
     = (if String.eqb t "" then "mdi:video-off" else "mdi:video")
  /\ _zoom_event_state (final_state r) = _zoom_event_state s
  /\ count is_set_state (trace r) = 0
  /\ is_on (final_state off) = VStr "off"
  /\ is_on (final_state off) <> VBool false
  /\ truthy (is_on (final_state off)) = true
  /\ icon (final_state off) = "mdi:video".
Proof.
  cbv zeta. rewrite !_restore_state_run.
  unfold final_state, trace, icon, is_on. simpl.
  destruct (String.eqb t ""); repeat split; discriminate.
Qed.

(** *** Push events *)

Lemma async_event_received_match (status : dict) (a b : string) (v : value)
    (s : entity) :
  dict_get status "ha_config_entry_id" = Some (VStr (entry_id (_config_entry s))) ->
  dict_get status ATTR_EVENT = Some (VStr CONNECTIVITY_EVENT) ->
  get_data_from_path (VDict status) CONNECTIVITY_ID = Ok (VStr a) ->
  id s = VStr b ->
  lower a = lower b ->
  get_data_from_path (VDict status) CONNECTIVITY_STATUS = Ok v ->
  async_event_received status s =
  (final_state (_set_state v s),
   trace (_set_state v s) ++ [WriteHaState], Ok tt).
Proof.
  intros He Hev Hid Hown Hl Hst.
  unfold async_event_received. run_monad.
  rewrite He. simpl. rewrite String.eqb_refl.
  rewrite Hev. simpl. rewrite String.eqb_refl.
  rewrite Hid. simpl. rewrite Hown. simpl.
  rewrite Hl, String.eqb_refl, Hst. reflexivity.
Qed.

(** C3: an event for another config entry, of another type, or whose nested
    identity does not equal, case-insensitively, the id of the entity leaves
    the entity exactly as it was and has no effect at all, so no state is
    written.  (The callback may end in an exception when a key is absent or a
    value has no [lower] method.) *)
Theorem event_mismatch_is_noop (status : dict) (s : entity) :
  dict_get status "ha_config_entry_id" <> Some (VStr (entry_id (_config_entry s)))
  \/ dict_get status ATTR_EVENT <> Some (VStr CONNECTIVITY_EVENT)
  \/ (forall a b : string,
        get_data_from_path (VDict status) CONNECTIVITY_ID = Ok (VStr a) ->
        id s = VStr b ->
        lower a <> lower b) ->
  let r := async_event_received status s in
  final_state r = s
  /\ trace r = []
  /\ _zoom_event_state (final_state r) = _zoom_event_state s
  /\ is_on (final_state r) = is_on s
  /\ available (final_state r) = available s
  /\ profile (final_state r) = profile s
  /\ count is_state_write (trace r) = 0.
Proof.
  intros H. cbv zeta.
  assert (G : final_state (async_event_received status s) = s
              /\ trace (async_event_received status s) = []).
  { unfold async_event_received. run_monad.
    destruct (dict_get status "ha_config_entry_id") as [x |] eqn:He;
      simpl; [| auto].
    destruct (eq_str x (entry_id (_config_entry s))) eqn:Ex; simpl; [| auto].
    apply eq_str_true in Ex. subst x.
    destruct (dict_get status ATTR_EVENT) as [y |] eqn:Hev; simpl; [| auto].
    destruct (eq_str y CONNECTIVITY_EVENT) eqn:Ey; simpl; [| auto].
    apply eq_str_true in Ey. subst y.
    destruct (get_data_from_path (VDict status) CONNECTIVITY_ID)
      as [ev_id | e] eqn:Hid; simpl; [| auto].
    destruct ev_id as [| | | a | |]; simpl; auto.
    destruct (id s) as [| | | b | |] eqn:Hown; simpl; auto.
    destruct (String.eqb (lower a) (lower b)) eqn:El; simpl; [| auto].
    apply String.eqb_eq in El.
    destruct H as [H | [H | H]].
    - now contradiction H.
    - now contradiction H.
    - now destruct (H a b eq_refl eq_refl). }
  destruct G as [Gs Gt]. rewrite Gs, Gt. now simpl.
Qed.

(** C4: an event for this config entry, of the connectivity type and with the
    identity of the entity runs the status mapper on the nested status field,
    whatever [available] is: [zoom_event_state] becomes that field, [available]
    is untouched and the state is written once. *)
Theorem event_match_sets_state (status : dict) (a b : string) (v : value)
    (s : entity) :
  dict_get status "ha_config_entry_id" = Some (VStr (entry_id (_config_entry s))) ->
  dict_get status ATTR_EVENT = Some (VStr CONNECTIVITY_EVENT) ->
  get_data_from_path (VDict status) CONNECTIVITY_ID = Ok (VStr a) ->
  id s = VStr b ->
  lower a = lower b ->
  get_data_from_path (VDict status) CONNECTIVITY_STATUS = Ok v ->
  let r := async_event_received status s in
  _zoom_event_state (final_state r) = v
  /\ final_state r = final_state (_set_state v s)
  /\ available (final_state r) = available s
  /\ count is_set_state (trace r) = 1
  /\ count is_state_write (trace r) = 1
  /\ outcome r = Ok tt.
Proof.
  intros He Hev Hid Hown Hl Hst. cbv zeta.
  rewrite (async_event_received_match status a b v) by assumption.
  rewrite _set_state_run. now simpl.
Qed.

(** ** Further properties of the module *)

(** *** [get_data_from_path] *)

Lemma get_data_from_path_empty_dict (path : list string) :
  get_data_from_path (VDict []) path = Ok VNone.
Proof.
  induction path as [| k path IH]; simpl; [reflexivity | exact IH].
Qed.

Lemma get_data_from_path_shape (data : value) (path : list string) :
  (exists s, get_data_from_path data path = Ok (VStr s))
  \/ get_data_from_path data path = Ok VNone
  \/ get_data_from_path data path = Raise AttributeError.
Proof.
  revert data. induction path as [| k path IH]; intros data; simpl.
  - destruct data; eauto.
  - destruct data; auto.
Qed.

Lemma dict_get_set_same (d : dict) (k : string) (v : value) :
  dict_get (dict_set d k v) k = Some v.
Proof.
  induction d as [| [k' v'] d IH]; simpl.
  - now rewrite String.eqb_refl.
  - destruct (String.eqb k' k) eqn:E; simpl; rewrite E; [reflexivity | exact IH].
Qed.

(** X1: [get_data_from_path] returns a string or [None], and the only
    exception it raises is [AttributeError]. *)
Theorem get_data_from_path_str_or_none (data : value) (path : list string) :
  match get_data_from_path data path with
  | Ok (VStr _) | Ok VNone | Raise AttributeError => True
  | _ => False
  end.
Proof.
  destruct (get_data_from_path_shape data path) as [[s H] | [H | H]];
    now rewrite H.
Qed.

(** X2: a key that is absent from the payload yields [None], however long
    the rest of the path is: the lookup goes on in empty dictionaries. *)
Theorem get_data_from_path_missing_key (d : dict) (k : string)
    (rest : list string) :
  dict_get d k = None ->
  get_data_from_path (VDict d) (k :: rest) = Ok VNone.
Proof.
  intros H. simpl. unfold get_default. rewrite H.
  apply get_data_from_path_empty_dict.
Qed.

(** X3: a key bound to something that is not a dictionary, with path left to
    walk, raises [AttributeError]; this holds for a JSON null too. *)
Theorem get_data_from_path_through_non_dict (d : dict) (k k' : string)
    (rest : list string) (v : value) :
  dict_get d k = Some v ->
  is_dict v = false ->
  get_data_from_path (VDict d) (k :: k' :: rest) = Raise AttributeError.
Proof.
  intros H Hv. simpl. unfold get_default. rewrite H.
  destruct v; try reflexivity. discriminate Hv.
Qed.

(** X4: when a string is found under [path ++ [k]], the lookup of any
    sibling [path ++ [k']] returns: it cannot raise. *)
Theorem get_data_from_path_sibling (data : value) (path : list string)
    (k k' a : string) :
  get_data_from_path data (path ++ [k]) = Ok (VStr a) ->
  exists v, get_data_from_path data (path ++ [k']) = Ok v.
Proof.
  revert data. induction path as [| k0 path IH]; intros data H.
  - simpl in *. destruct data; try discriminate H.
    destruct (get_default items k' (VDict [])); eauto.
  - simpl in *. destruct data; try discriminate H. eauto.
Qed.

(** X5: a string stored in a payload under a path is what
    [get_data_from_path] returns for that path, whatever else the payload
    holds; a leaf that is not a string is returned as [None]. *)
Theorem get_data_from_path_put_path (d : dict) (k : string)
    (rest : list string) (leaf : value) :
  get_data_from_path (VDict (put_path d k rest leaf)) (k :: rest)
  = Ok (match leaf with VStr s => VStr s | _ => VNone end).
Proof.
  revert d k. induction rest as [| k' rest IH]; intros d k.
  - simpl. unfold get_default. rewrite dict_get_set_same.
    destruct leaf; reflexivity.
  - cbn [put_path]. cbn [get_data_from_path].
    unfold get_default at 1. rewrite dict_get_set_same. apply IH.
Qed.

(** *** More on [_set_state] *)

(** X6: the status mapper keeps no history: mapping [a] and then [b] leaves
    the entity as mapping [b] alone does. *)
Theorem set_state_last_wins (a b : value) (s : entity) :
  final_state (_set_state b (final_state (_set_state a s)))
  = final_state (_set_state b s).
Proof. rewrite !_set_state_run. reflexivity. Qed.

Lemma py_in_In (v : value) (statuses : list string) :
  py_in v statuses = true -> exists c, v = VStr c /\ In c statuses.
Proof.
  unfold py_in. intros H. apply existsb_exists in H as (c & Hc & He).
  apply eq_str_true in He. eauto.
Qed.

(** X7: when the sensor reads as on after [_set_state S], [S] is a non-empty
    string that occurs in the connected statuses. *)
Theorem set_state_on_only_if_connected (S : value) (s : entity) :
  truthy (is_on (final_state (_set_state S s))) = true ->
  exists c, S = VStr c /\ c <> ""
            /\ In c (options_on_statuses (_config_entry s)).
Proof.
  rewrite _set_state_run. unfold final_state, is_on, py_and. simpl.
  destruct (truthy S) eqn:E; simpl; intros H.
  - apply py_in_In in H as (c & -> & Hin). exists c. repeat split; auto.
    intros ->. discriminate E.
  - rewrite E in H. discriminate H.
Qed.

(** *** More on the poller *)

Ltac poll_cases o s :=
  let Hid := fresh "Hid" in
  let Hav := fresh "Hav" in
  let Hps := fresh "Hps" in
  let p := fresh "p" in
  let e := fresh "e" in
  let v := fresh "v" in
  destruct (truthy (id s)) eqn:Hid;
  [ destruct (_attr_available s) eqn:Hav; destruct o as [p | e];
    [ rewrite ?_async_update_steady by assumption
    | rewrite ?_async_update_failure_edge by assumption
    | destruct (dict_get p "presence_status") as [v |] eqn:Hps;
      [ rewrite ?(_async_update_recovery p v) by assumption;
        rewrite ?_set_state_run
      | rewrite ?_async_update_recovery_no_status by assumption ]
    | rewrite ?_async_update_failure_silent by assumption ]
  | rewrite ?_async_update_unresolved by assumption ].

Lemma poll_frame (o : fetch_outcome) (s : entity) :
  class (final_state (_async_update o s)) = class s
  /\ _config_entry (final_state (_async_update o s)) = _config_entry s
  /\ _coordinator_data (final_state (_async_update o s)) = _coordinator_data s.
Proof. poll_cases o s; now simpl. Qed.

Lemma final_state_polls_cons (o : fetch_outcome) (os : list fetch_outcome)
    (s : entity) :
  final_state (polls (o :: os) s)
  = final_state (polls os (final_state (_async_update o s))).
Proof. now rewrite polls_cons. Qed.

Lemma final_state_triple {A} (s : entity) (t : list effect) (r : result A) :
  final_state (s, t, r) = s.
Proof. reflexivity. Qed.

Lemma trace_triple {A} (s : entity) (t : list effect) (r : result A) :
  trace (s, t, r) = t.
Proof. reflexivity. Qed.

Lemma last_cons {A} (a d : A) (l : list A) : last (a :: l) d = last l a.
Proof.
  revert a d. induction l as [| b l IH]; intros a d; [reflexivity |].
  change (last (a :: b :: l) d) with (last (b :: l) d).
  now rewrite (IH b d), (IH b a).
Qed.

(** X8: a poll never raises, calls the profile endpoint once when [id] is
    truthy and not at all otherwise, and leaves the class, the config entry
    and the coordinator's data alone. *)
Theorem poll_never_raises (o : fetch_outcome) (s : entity) :
  let r := _async_update o s in
  outcome r = Ok tt
  /\ count is_fetch (trace r) = (if truthy (id s) then 1 else 0)
  /\ class (final_state r) = class s
  /\ _config_entry (final_state r) = _config_entry s
  /\ _coordinator_data (final_state r) = _coordinator_data s.
Proof. cbv zeta. poll_cases o s; now simpl. Qed.

(** X9: a poll writes the state of the entity exactly when it changes
    [available], and then once. *)
Theorem poll_writes_state_iff_available_flips (o : fetch_outcome)
    (s : entity) :
  let r := _async_update o s in
  count is_state_write (trace r)
  = if Bool.eqb (available s) (available (final_state r)) then 0 else 1.
Proof.
  cbv zeta. unfold available.
  poll_cases o s; unfold final_state, trace; simpl;
    rewrite ?Hav, ?Bool.eqb_reflx; reflexivity.
Qed.

(** X10: with a falsy [id] a poll does nothing at all: the entity is
    unchanged and there is no effect, whatever the endpoint would answer. *)
Theorem poll_unresolved_id_is_noop (o : fetch_outcome) (s : entity) :
  truthy (id s) = false ->
  _async_update o s = (s, [], Ok tt).
Proof. apply _async_update_unresolved. Qed.

(** X11: while the fetched profile has no [presence_status] entry an
    unavailable entity never recovers: each of [n] such polls logs the
    recovery record, none writes the state, and the entity stays unavailable
    with its status untouched. *)
Theorem recovery_without_status_repeats (p : dict) (n : nat) (s : entity) :
  dict_get p "presence_status" = None ->
  available s = false ->
  truthy (id s) = true ->
  truthy (id (set_profile (Some p) s)) = true ->
  let r := polls (repeat (Fetched p) n) s in
  available (final_state r) = false
  /\ count is_recovery_log (trace r) = n
  /\ count is_state_write (trace r) = 0
  /\ _zoom_event_state (final_state r) = _zoom_event_state s
  /\ is_on (final_state r) = is_on s.
Proof.
  intros Hps. cbv zeta. unfold available, is_on.
  revert s. induction n as [| n IH]; intros s Hav Hid Hid'.
  - now simpl.
  - cbn [repeat]. rewrite final_state_polls_cons, trace_polls_cons.
    rewrite _async_update_recovery_no_status by assumption.
    rewrite !final_state_triple, !trace_triple.
    destruct (IH (set_profile (Some p) s) Hav Hid' Hid')
      as (H1 & H2 & H3 & H4 & H5).
    rewrite !count_app, H1, H2, H3, H4, H5. now simpl.
Qed.

(** X12: after a run of polls with [id] resolvable and [presence_status]
    present in every fetched profile, [available] tells whether the last poll
    succeeded; without any poll it is what it was. *)
Theorem available_after_polls (os : list fetch_outcome) (s : entity) :
  id_resolvable_throughout s os = true ->
  forallb has_presence_status os = true ->
  available (final_state (polls os s))
  = last (map succeeds os) (available s).
Proof.
  unfold available. revert s.
  induction os as [| o os IH]; intros s Hres Hwf.
  - reflexivity.
  - simpl in Hres, Hwf.
    apply andb_prop in Hres as [Hid Hres].
    apply andb_prop in Hwf as [Ho Hwf].
    destruct (poll_step o s Hid Ho) as (Hav & _).
    rewrite final_state_polls_cons, (IH _ Hres Hwf), Hav.
    cbn [map]. now rewrite last_cons.
Qed.

Lemma id_configured_poll (o : fetch_outcome) (s : entity) :
  id_configured s = true ->
  id_configured (final_state (_async_update o s)) = true
  /\ id (final_state (_async_update o s)) = id s
  /\ truthy (id s) = true.
Proof.
  intros H. destruct (poll_frame o s) as (Hc & Hcfg & _).
  unfold id_configured, id in *. rewrite Hc, Hcfg.
  destruct (class s); unfold py_or; try rewrite H; auto.
Qed.

(** X13: when the id is configured (a truthy [CONF_ID] entry, or a truthy
    [_id] in the contact class) it is resolvable at every poll of every run,
    and no run of polls changes it. *)
Theorem configured_id_always_resolvable (os : list fetch_outcome)
    (s : entity) :
  id_configured s = true ->
  id_resolvable_throughout s os = true
  /\ id (final_state (polls os s)) = id s.
Proof.
  revert s. induction os as [| o os IH]; intros s H.
  - now simpl.
  - destruct (id_configured_poll o s H) as (H' & Hid & Ht).
    destruct (IH _ H') as [IH1 IH2].
    cbn [id_resolvable_throughout].
    rewrite Ht, IH1, final_state_polls_cons, IH2, Hid. now simpl.
Qed.

(** X14: failed polls are idempotent: after any non-empty run of failures
    the entity is the one it was with [available] false, and the run logged a
    warning and wrote the state once if the entity was available, never
    otherwise. *)
Theorem failed_polls_idempotent (o : fetch_outcome) (os : list fetch_outcome)
    (s : entity) :
  truthy (id s) = true ->
  forallb (fun o => negb (succeeds o)) (o :: os) = true ->
  let r := polls (o :: os) s in
  final_state r = set_attr_available false s
  /\ count is_warning_log (trace r) = (if available s then 1 else 0)
  /\ count is_state_write (trace r) = (if available s then 1 else 0).
Proof.
  cbv zeta. unfold available. revert o s.
  induction os as [| o' os IH]; intros o s Hid Hf;
    cbn [forallb] in Hf; apply andb_prop in Hf as [Ho Hf];
    destruct o as [p | e]; try discriminate Ho;
    rewrite final_state_polls_cons, trace_polls_cons, count_app, count_app.
  - destruct (_attr_available s) eqn:Hav.
    + rewrite _async_update_failure_edge by assumption. now simpl.
    + rewrite _async_update_failure_silent by assumption.
      destruct s; simpl in *; now subst.
  - destruct (_attr_available s) eqn:Hav.
    + rewrite _async_update_failure_edge by assumption.
      rewrite !final_state_triple, !trace_triple.
      destruct (IH o' (set_attr_available false s) Hid Hf) as (H1 & H2 & H3).
      rewrite H1, H2, H3. now simpl.
    + rewrite _async_update_failure_silent by assumption.
      rewrite !final_state_triple, !trace_triple.
      destruct (IH o' s Hid Hf) as (H1 & H2 & H3).
      rewrite H1, H2, H3, Hav. now simpl.
Qed.

(** *** More on bootstrap *)

Lemma base_bootstrap_success (p : dict) (v : value) (last : option State)
    (s : entity) :
  truthy (id s) = true ->
  dict_get p "presence_status" = Some v ->
  base_async_added_to_hass (Fetched p) last s =
  (final_state (_set_state v (set_profile (Some p) s)),
   base_registrations
     ++ [GetContactUserProfile (id s); Log DEBUG (RetrievedInitialStatus v)]
     ++ trace (_set_state v (set_profile (Some p) s)) ++ [WriteHaState],
   Ok tt).
Proof.
  intros Hid Hps. unfold base_async_added_to_hass. run_monad. rewrite Hid.
  simpl. rewrite Hps. reflexivity.
Qed.

Lemma base_bootstrap_no_status (p : dict) (last : option State) (s : entity) :
  truthy (id s) = true ->
  dict_get p "presence_status" = None ->
  base_async_added_to_hass (Fetched p) last s =
  (restored last (set_profile (Some p) s),
   base_registrations
     ++ [GetContactUserProfile (id s); Log WARNING ErrorRetrievingRestoring;
         GetLastState],
   Ok tt).
Proof.
  intros Hid Hps. unfold base_async_added_to_hass. run_monad. rewrite Hid.
  simpl. rewrite Hps. simpl. now rewrite _restore_state_run.
Qed.

Lemma base_bootstrap_failure (e : exn) (last : option State) (s : entity) :
  truthy (id s) = true ->
  e <> HTTPUnauthorized ->
  base_async_added_to_hass (FetchFails e) last s =
  (restored last s,
   base_registrations
     ++ [GetContactUserProfile (id s); Log WARNING ErrorRetrievingRestoring;
         GetLastState],
   Ok tt).
Proof.
  intros Hid He. unfold base_async_added_to_hass. run_monad. rewrite Hid.
  destruct e; try (now contradiction He); simpl;
    now rewrite _restore_state_run.
Qed.

Lemma async_added_to_hass_closed (o : fetch_outcome) (last : option State)
    (s s1 : entity) (t1 : list effect) :
  base_async_added_to_hass o last s = (s1, t1, Ok tt) ->
  async_added_to_hass o last s
  = (s1, t1 ++ class_registrations (class s), Ok tt).
Proof.
  intros H. unfold async_added_to_hass, class_registrations. run_monad.
  destruct (class s); rewrite ?H; simpl; rewrite ?app_nil_r; reflexivity.
Qed.

(** What every bootstrap has in common. *)
Lemma base_bootstrap_cases (o : fetch_outcome) (last : option State)
    (s : entity) :
  exists s1 t,
    base_async_added_to_hass o last s = (s1, base_registrations ++ t, Ok tt)
    /\ _attr_available s1 = _attr_available s
    /\ class s1 = class s
    /\ _config_entry s1 = _config_entry s
    /\ count is_state_write t + count is_get_last_state t = 1
    /\ count is_fetch t = (if truthy (id s) then 1 else 0)
    /\ count is_registration t = 0
    /\ (last = None -> _is_on s1 = _is_on s \/ count is_set_state t = 1).
Proof.
  destruct (truthy (id s)) eqn:Hid.
  - destruct o as [p | e].
    + destruct (dict_get p "presence_status") as [v |] eqn:Hps.
      * rewrite (base_bootstrap_success p v) by assumption.
        rewrite _set_state_run. do 2 eexists. split; [reflexivity |].
        simpl. repeat split; auto.
      * rewrite base_bootstrap_no_status by assumption.
        do 2 eexists. split; [reflexivity |].
        destruct last; simpl; repeat split; auto. discriminate.
    + assert (He : e = HTTPUnauthorized \/ e <> HTTPUnauthorized)
        by (destruct e; auto; right; discriminate).
      destruct He as [-> | He].
      * rewrite base_bootstrap_unauthorized by assumption.
        exists (restored last s). eexists. split; [reflexivity |].
        destruct last; simpl; repeat split; auto. discriminate.
      * rewrite base_bootstrap_failure by assumption.
        do 2 eexists. split; [reflexivity |].
        destruct last; simpl; repeat split; auto. discriminate.
  - rewrite base_bootstrap_unresolved by assumption.
    exists (restored last s). eexists. split; [reflexivity |].
    destruct last; simpl; repeat split; auto. discriminate.
Qed.

(** X15: bootstrap that fetches a profile with a [presence_status] stores the
    profile, runs the status mapper on that status, writes the state once and
    does not read the restore store, whatever it holds. *)
Theorem bootstrap_fetches_status (p : dict) (v : value) (last : option State)
    (s : entity) :
  truthy (id s) = true ->
  dict_get p "presence_status" = Some v ->
  let r := async_added_to_hass (Fetched p) last s in
  final_state r = final_state (_set_state v (set_profile (Some p) s))
  /\ _zoom_event_state (final_state r) = v
  /\ _profile (final_state r) = Some p
  /\ count is_state_write (trace r) = 1
  /\ count is_get_last_state (trace r) = 0
  /\ count is_fetch (trace r) = 1.
Proof.
  intros Hid Hps. cbv zeta.
  rewrite (async_added_to_hass_closed _ _ _ _ _
             (base_bootstrap_success p v last s Hid Hps)).
  rewrite _set_state_run, !final_state_triple, !trace_triple.
  unfold class_registrations.
  destruct (is_authenticated (class s)); now simpl.
Qed.

(** X16: bootstrap whose fetch fails with anything but [HTTPUnauthorized]
    logs the warning, ends in the restored state and writes no state. *)
Theorem bootstrap_fetch_error (e : exn) (last : option State) (s : entity) :
  truthy (id s) = true ->
  e <> HTTPUnauthorized ->
  let r := async_added_to_hass (FetchFails e) last s in
  final_state r = restored last s
  /\ In (Log WARNING ErrorRetrievingRestoring) (trace r)
  /\ count is_state_write (trace r) = 0
  /\ count is_get_last_state (trace r) = 1.
Proof.
  intros Hid He. cbv zeta.
  rewrite (async_added_to_hass_closed _ _ _ _ _
             (base_bootstrap_failure e last s Hid He)).
  rewrite !final_state_triple, !trace_triple. unfold class_registrations.
  destruct (is_authenticated (class s)); simpl; repeat split; auto 10.
Qed.

(** X17: bootstrap that fetches a profile without [presence_status] falls
    back on the restored state like a failed fetch, yet keeps the fetched
    profile; the status is left as it was and no state is written. *)
Theorem bootstrap_profile_without_status (p : dict) (last : option State)
    (s : entity) :
  truthy (id s) = true ->
  dict_get p "presence_status" = None ->
  let r := async_added_to_hass (Fetched p) last s in
  final_state r = restored last (set_profile (Some p) s)
  /\ _profile (final_state r) = Some p
  /\ _zoom_event_state (final_state r) = _zoom_event_state s
  /\ In (Log WARNING ErrorRetrievingRestoring) (trace r)
  /\ count is_state_write (trace r) = 0
  /\ count is_get_last_state (trace r) = 1.
Proof.
  intros Hid Hps. cbv zeta.
  rewrite (async_added_to_hass_closed _ _ _ _ _
             (base_bootstrap_no_status p last s Hid Hps)).
  rewrite !final_state_triple, !trace_triple. unfold class_registrations.
  destruct last; destruct (is_authenticated (class s)); simpl;
    repeat split; auto 10.
Qed.

(** X18: every bootstrap returns; it never changes [available], the class or
    the config entry; it either writes the state or reads the restore store,
    never both and never neither; and it calls the endpoint once when [id] is
    truthy and not at all otherwise. *)
Theorem bootstrap_invariants (o : fetch_outcome) (last : option State)
    (s : entity) :
  let r := async_added_to_hass o last s in
  outcome r = Ok tt
  /\ available (final_state r) = available s
  /\ class (final_state r) = class s
  /\ _config_entry (final_state r) = _config_entry s
  /\ count is_state_write (trace r) + count is_get_last_state (trace r) = 1
  /\ count is_fetch (trace r) = (if truthy (id s) then 1 else 0).
Proof.
  cbv zeta. unfold available.
  destruct (base_bootstrap_cases o last s)
    as (s1 & t & H & Hav & Hc & Hcfg & Hw & Hf & _).
  rewrite (async_added_to_hass_closed _ _ _ _ _ H).
  rewrite !final_state_triple, !trace_triple, !count_app, Hf.
  unfold outcome, class_registrations.
  destruct (is_authenticated (class s)); simpl;
    rewrite ?Nat.add_0_r; repeat split; auto.
Qed.

(** X19: every bootstrap first registers the four subscriptions of the base
    class, in the order of the source, and registers nothing else except, for
    the authenticated user's entity, the event listener, which comes last. *)
Theorem bootstrap_registers_listeners (o : fetch_outcome)
    (last : option State) (s : entity) :
  exists t,
    trace (async_added_to_hass o last s)
    = base_registrations ++ t ++ class_registrations (class s)
    /\ count is_registration t = 0.
Proof.
  destruct (base_bootstrap_cases o last s)
    as (s1 & t & H & _ & _ & _ & _ & _ & Hr & _).
  rewrite (async_added_to_hass_closed _ _ _ _ _ H), trace_triple.
  exists t. now rewrite app_assoc.
Qed.

(** X20: when nothing is persisted, a bootstrap that cannot fetch, because
    [id] is falsy or because the endpoint raises, leaves the entity exactly as
    it was. *)
Theorem bootstrap_nothing_to_restore (o : fetch_outcome) (s : entity) :
  truthy (id s) = false \/ succeeds o = false ->
  final_state (async_added_to_hass o None s) = s.
Proof.
  intros H.
  destruct (truthy (id s)) eqn:Hid.
  - destruct H as [H | H]; [discriminate H |].
    destruct o as [p | e]; [discriminate H |].
    assert (He : e = HTTPUnauthorized \/ e <> HTTPUnauthorized)
      by (destruct e; auto; right; discriminate).
    destruct He as [-> | He].
    + now rewrite (async_added_to_hass_closed _ _ _ _ _
                     (base_bootstrap_unauthorized None s Hid)).
    + now rewrite (async_added_to_hass_closed _ _ _ _ _
                     (base_bootstrap_failure e None s Hid He)).
  - now rewrite (async_added_to_hass_closed _ _ _ _ _
                   (base_bootstrap_unresolved o None s Hid)).
Qed.

(** *** More on push events *)

(** The three ways an event can go. *)
Lemma async_event_received_cases (status : dict) (s : entity) :
  async_event_received status s = (s, [], Ok tt)
  \/ (exists e,
        async_event_received status s = (s, [], Raise e)
        /\ (e = AttributeError \/ e = KeyError "ha_config_entry_id"
            \/ e = KeyError ATTR_EVENT))
  \/ (exists v,
        async_event_received status s
        = (final_state (_set_state v s),
           trace (_set_state v s) ++ [WriteHaState], Ok tt)).
Proof.
  unfold async_event_received. run_monad.
  destruct (dict_get status "ha_config_entry_id") as [x |] eqn:He;
    simpl; [| right; left; eauto].
  destruct (eq_str x (entry_id (_config_entry s))) eqn:Ex; simpl; [| auto].
  destruct (dict_get status ATTR_EVENT) as [y |] eqn:Hev;
    simpl; [| right; left; eauto 6].
  destruct (eq_str y CONNECTIVITY_EVENT) eqn:Ey; simpl; [| auto].
  destruct (get_data_from_path_shape (VDict status) CONNECTIVITY_ID)
    as [[a Ha] | [Ha | Ha]]; rewrite Ha; simpl;
    [| right; left; eauto | right; left; eauto].
  destruct (id s) as [| | | b | |] eqn:Hown; simpl;
    try (right; left; eauto; fail).
  destruct (String.eqb (lower a) (lower b)) eqn:El; simpl; [| auto].
  right.
  destruct (get_data_from_path_shape (VDict status) CONNECTIVITY_STATUS)
    as [[c Hc] | [Hc | Hc]]; rewrite Hc; simpl.
  - right. exists (VStr c). reflexivity.
  - right. exists VNone. reflexivity.
  - left. eauto.
Qed.

(** X21: an event never changes [available], the stored profile, the class
    or the config entry, and it writes the state exactly when it has run the
    status mapper, at most once. *)
Theorem event_frame (status : dict) (s : entity) :
  let r := async_event_received status s in
  available (final_state r) = available s
  /\ _profile (final_state r) = _profile s
  /\ class (final_state r) = class s
  /\ _config_entry (final_state r) = _config_entry s
  /\ count is_state_write (trace r) = count is_set_state (trace r)
  /\ count is_state_write (trace r) <= 1.
Proof.
  cbv zeta.
  destruct (async_event_received_cases status s)
    as [H | [(e & H & _) | (v & H)]]; rewrite H; rewrite ?_set_state_run;
    simpl; repeat split; auto.
Qed.

(** X22: an event callback that raises has changed nothing and has had no
    effect, and the exception is [AttributeError] or a [KeyError] for one of
    the two keys the callback subscripts. *)
Theorem event_raise_has_no_effect (status : dict) (s : entity) (e : exn) :
  outcome (async_event_received status s) = Raise e ->
  final_state (async_event_received status s) = s
  /\ trace (async_event_received status s) = []
  /\ (e = AttributeError \/ e = KeyError "ha_config_entry_id"
      \/ e = KeyError ATTR_EVENT).
Proof.
  destruct (async_event_received_cases status s)
    as [H | [(e' & H & He) | (v & H)]]; rewrite H; unfold outcome; simpl;
    intros Hr; try discriminate Hr.
  injection Hr as <-. auto.
Qed.

(** X23: an event that carries no [ha_config_entry_id] raises [KeyError]. *)
Theorem event_without_entry_id_raises (status : dict) (s : entity) :
  dict_get status "ha_config_entry_id" = None ->
  async_event_received status s
  = (s, [], Raise (KeyError "ha_config_entry_id")).
Proof.
  intros H. unfold async_event_received. run_monad. now rewrite H.
Qed.

(** X24: an event of another config entry is dropped without an error and
    without a look at the rest of the payload. *)
Theorem event_other_entry_dropped (status : dict) (x : value) (s : entity) :
  dict_get status "ha_config_entry_id" = Some x ->
  x <> VStr (entry_id (_config_entry s)) ->
  async_event_received status s = (s, [], Ok tt).
Proof.
  intros H Hx. unfold async_event_received. run_monad. rewrite H. simpl.
  destruct (eq_str x (entry_id (_config_entry s))) eqn:E; [| reflexivity].
  apply eq_str_true in E. contradiction.
Qed.

(** X25: a connectivity event of this config entry raises [AttributeError]
    when its identity field is absent or not a string, or when the id of the
    entity is not a string (for instance unresolved); the entity is left
    untouched. *)
Theorem event_without_string_ids_raises (status : dict) (x : value)
    (s : entity) :
  dict_get status "ha_config_entry_id" = Some (VStr (entry_id (_config_entry s))) ->
  dict_get status ATTR_EVENT = Some (VStr CONNECTIVITY_EVENT) ->
  get_data_from_path (VDict status) CONNECTIVITY_ID = Ok x ->
  is_str x && is_str (id s) = false ->
  async_event_received status s = (s, [], Raise AttributeError).
Proof.
  intros He Hev Hid Hs. unfold async_event_received. run_monad.
  rewrite He. simpl. rewrite String.eqb_refl.
  rewrite Hev. simpl. rewrite String.eqb_refl.
  rewrite Hid. simpl.
  destruct x; simpl; try reflexivity.
  destruct (id s); simpl; try reflexivity. discriminate Hs.
Qed.

(** *** Runs of callbacks *)

Lemma reads_after_set_state (v : value) (s : entity) :
  reads_on_iff_connected (final_state (_set_state v s)) = true.
Proof.
  rewrite _set_state_run. unfold reads_on_iff_connected, final_state, py_and.
  simpl. destruct (truthy v) eqn:E; simpl.
  - apply Bool.eqb_reflx.
  - now rewrite E.
Qed.

Lemma dispatch_keeps_reading (c : callback) (s : entity) :
  reads_on_iff_connected s = true ->
  reads_on_iff_connected (final_state (dispatch c s)) = true.
Proof.
  intros H. destruct c as [o | status |]; simpl dispatch.
  - poll_cases o s; rewrite ?final_state_triple; try exact H.
    pose proof (reads_after_set_state v (set_profile (Some p) s)) as R.
    rewrite _set_state_run in R. exact R.
  - destruct (async_event_received_cases status s)
      as [E | [(e & E & _) | (v & E)]]; rewrite E, ?final_state_triple;
      try exact H.
    apply reads_after_set_state.
  - exact H.
Qed.

Lemma run_keeps_reading (cs : list callback) (s : entity) :
  reads_on_iff_connected s = true ->
  reads_on_iff_connected (fst (run cs s)) = true.
Proof.
  revert s. induction cs as [| c cs IH]; intros s H; [exact H |].
  cbn [run fst]. apply IH. now apply dispatch_keeps_reading.
Qed.

(** X26: timer ticks, events and option updates, in any number and order,
    keep the sensor reading as on exactly when the recorded status is truthy
    and one of the connected statuses of the entry. *)
Theorem run_reads_on_iff_connected (cs : list callback) (s : entity) :
  reads_on_iff_connected s = true ->
  reads_on_iff_connected (fst (run cs s)) = true.
Proof. apply run_keeps_reading. Qed.

Lemma dispatch_keeps_config (c : callback) (s : entity) :
  _config_entry (final_state (dispatch c s)) = _config_entry s.
Proof.
  destruct c as [o | status |]; simpl dispatch.
  - apply poll_frame.
  - destruct (async_event_received_cases status s)
      as [E | [(e & E & _) | (v & E)]]; rewrite E; rewrite ?_set_state_run;
      reflexivity.
  - reflexivity.
Qed.

Lemma run_keeps_config (cs : list callback) (s : entity) :
  _config_entry (fst (run cs s)) = _config_entry s.
Proof.
  revert s. induction cs as [| c cs IH]; intros s; [reflexivity |].
  cbn [run fst]. now rewrite IH, dispatch_keeps_config.
Qed.

Lemma bootstrap_keeps_reading (o : fetch_outcome) (s : entity) :
  reads_on_iff_connected s = true ->
  reads_on_iff_connected (final_state (async_added_to_hass o None s)) = true.
Proof.
  intros H. destruct (truthy (id s)) eqn:Hid.
  - destruct o as [p | e].
    + destruct (dict_get p "presence_status") as [v |] eqn:Hps.
      * rewrite (async_added_to_hass_closed _ _ _ _ _
                   (base_bootstrap_success p v None s Hid Hps)).
        rewrite final_state_triple. apply reads_after_set_state.
      * now rewrite (async_added_to_hass_closed _ _ _ _ _
                       (base_bootstrap_no_status p None s Hid Hps)).
    + assert (He : e = HTTPUnauthorized \/ e <> HTTPUnauthorized)
        by (destruct e; auto; right; discriminate).
      destruct He as [-> | He].
      * now rewrite (async_added_to_hass_closed _ _ _ _ _
                       (base_bootstrap_unauthorized None s Hid)).
      * now rewrite (async_added_to_hass_closed _ _ _ _ _
                       (base_bootstrap_failure e None s Hid He)).
  - now rewrite (async_added_to_hass_closed _ _ _ _ _
                   (base_bootstrap_unresolved o None s Hid)).
Qed.

(** X27: an entity created by [__init__] and attached while nothing is
    persisted reads as on exactly when its recorded status is truthy and one
    of the connected statuses of its entry, after the bootstrap and after
    every later run of timer ticks, events and option-update callbacks, as long
    as the connected statuses of the entry are not edited: in these runs they
    are the ones the entity was created with.  (The option-update callback
    writes the state and does not recompute [is_on]; an edit of the statuses
    is outside the runs considered.) *)
Theorem lifecycle_reads_on_iff_connected (c : sensor_class)
    (config_entry : ConfigEntry) (coordinator_data : option dict)
    (o : fetch_outcome) (cs : list callback) :
  let s0 := init c config_entry coordinator_data in
  let s1 := final_state (async_added_to_hass o None s0) in
  reads_on_iff_connected s1 = true
  /\ reads_on_iff_connected (fst (run cs s1)) = true
  /\ options_on_statuses (_config_entry (fst (run cs s1)))
     = options_on_statuses config_entry
  /\ truthy (is_on (fst (run cs s1)))
     = truthy (_zoom_event_state (fst (run cs s1)))
       && py_in (_zoom_event_state (fst (run cs s1)))
            (options_on_statuses config_entry).
Proof.
  cbv zeta. set (s0 := init c config_entry coordinator_data).
  assert (H : reads_on_iff_connected
                (final_state (async_added_to_hass o None s0)) = true)
    by (now apply bootstrap_keeps_reading).
  assert (Hc : _config_entry (fst (run cs
                 (final_state (async_added_to_hass o None s0))))
               = config_entry).
  { rewrite run_keeps_config.
    destruct (base_bootstrap_cases o None s0)
      as (s1 & t & Hb & _ & _ & Hcfg & _).
    now rewrite (async_added_to_hass_closed _ _ _ _ _ Hb), final_state_triple. }
  pose proof (run_keeps_reading cs _ H) as Hr.
  split; [exact H | split; [exact Hr | split; [now rewrite Hc |]]].
  unfold reads_on_iff_connected in Hr. apply Bool.eqb_prop in Hr.
  unfold is_on. now rewrite Hr, Hc.
Qed.

Lemma dispatch_not_timer (c : callback) (s : entity) :
  is_timer c = false ->
  _attr_available (final_state (dispatch c s)) = _attr_available s
  /\ _profile (final_state (dispatch c s)) = _profile s.
Proof.
  destruct c as [o | status |]; simpl; intros H; try discriminate H.
  - destruct (async_event_received_cases status s)
      as [E | [(e & E & _) | (v & E)]]; rewrite E; rewrite ?_set_state_run;
      now simpl.
  - now simpl.
Qed.

(** X28: only the timer changes [available] and the stored profile: a run of
    events and option updates leaves both as they were. *)
Theorem run_without_timer_keeps_available (cs : list callback) (s : entity) :
  forallb (fun c => negb (is_timer c)) cs = true ->
  available (fst (run cs s)) = available s
  /\ _profile (fst (run cs s)) = _profile s.
Proof.
  unfold available. revert s.
  induction cs as [| c cs IH]; intros s H; [now simpl |].
  cbn [forallb] in H. apply andb_prop in H as [Hc H].
  apply negb_true_iff in Hc.
  destruct (dispatch_not_timer c s Hc) as [Ha Hp].
  destruct (IH (final_state (dispatch c s)) H) as [IHa IHp].
  cbn [run fst]. now rewrite IHa, IHp, Ha, Hp.
Qed.

(** *** [extra_state_attributes] *)

(** X29: [extra_state_attributes] is [None] exactly when the five properties
    and the status are all falsy: when they all are, it returns [None], and
    when one of them is truthy it returns a non-empty dictionary all of whose
    values are truthy. *)
Theorem attributes_none_or_truthy (s : entity) :
  if forallb (fun prop => negb (truthy (getattr s prop))) attribute_props
     && negb (truthy (_zoom_event_state s))
  then extra_state_attributes s = None
  else exists d,
         extra_state_attributes s = Some d
         /\ d <> []
         /\ forallb (fun kv => truthy (snd kv)) d = true.
Proof.
  unfold extra_state_attributes, attribute_props, getattr.
  cbn [filter snd forallb String.eqb Ascii.eqb Bool.eqb].
  destruct (truthy (id s)) eqn:E1, (truthy (first_name s)) eqn:E2,
    (truthy (last_name s)) eqn:E3, (truthy (email s)) eqn:E4,
    (truthy (account_id s)) eqn:E5, (truthy (_zoom_event_state s)) eqn:E6;
    cbn [app negb andb];
    try reflexivity;
    (eexists; split; [reflexivity | split; [discriminate |]];
     cbn [forallb snd andb];
     rewrite ?E1, ?E2, ?E3, ?E4, ?E5, ?E6; reflexivity).
Qed.

(** X30: looking a property up in the attributes gives its value when the
    value is truthy and nothing otherwise; the same holds for the status under
    the key [status]. *)
Theorem attributes_lookup (s : entity) :
  let attrs := attributes_built (extra_state_attributes s) in
  Forall (fun prop =>
            dict_get attrs prop
            = if truthy (getattr s prop) then Some (getattr s prop) else None)
         attribute_props
  /\ dict_get attrs "status"
     = if truthy (_zoom_event_state s) then Some (_zoom_event_state s)
       else None.
Proof.
  cbv zeta.
  unfold extra_state_attributes, attribute_props, getattr, attributes_built.
  cbn [filter snd String.eqb Ascii.eqb Bool.eqb].
  destruct (truthy (id s)) eqn:E1, (truthy (first_name s)) eqn:E2,
    (truthy (last_name s)) eqn:E3, (truthy (email s)) eqn:E4,
    (truthy (account_id s)) eqn:E5, (truthy (_zoom_event_state s)) eqn:E6;
    cbn [app];
    (split; [repeat constructor |]);
    cbn [dict_get String.eqb Ascii.eqb Bool.eqb];
    rewrite ?E1, ?E2, ?E3, ?E4, ?E5, ?E6; reflexivity.
Qed.

End Constants.

(** ** The model on concrete inputs *)

Example get_data_from_path_id :
  get_data_from_path (VDict (presence_event "entry-1" "abc" "Away"))
    sample_CONNECTIVITY_ID = Ok (VStr "abc").
Proof. reflexivity. Qed.

Example get_data_from_path_absent :
  get_data_from_path (VDict [("payload", VDict [])]) sample_CONNECTIVITY_ID
  = Ok VNone.
Proof. reflexivity. Qed.

Example get_data_from_path_not_a_dict :
  get_data_from_path (VDict [("payload", VStr "text")]) sample_CONNECTIVITY_ID
  = Raise AttributeError.
Proof. reflexivity. Qed.

(** Statuses pushed one after the other, with connected statuses
    [Available] and [In Meeting]. *)
Example pushed_statuses :
  map (fun status => is_on (final_state (_set_state (VStr status) fresh)))
    ["In Meeting"; "Away"; "Available"]
  = [VBool true; VBool false; VBool true].
Proof. reflexivity. Qed.

Example icon_fresh : icon fresh = "mdi:video-off".
Proof. reflexivity. Qed.

Example attributes_fresh :
  extra_state_attributes sample_CONF_ID fresh = Some [("id", VStr "AbC")].
Proof. reflexivity. Qed.

Example attributes_nameless :
  extra_state_attributes sample_CONF_ID nameless = None.
Proof. reflexivity. Qed.

(** The authenticated user's entity falls back on the coordinator's data. *)
Example id_from_coordinator :
  id sample_CONF_ID
    (init ZoomAuthenticatedUserBinarySensor anonymous (Some [("id", VStr "me")]))
  = VStr "me".
Proof. reflexivity. Qed.

(** A fetched profile without [presence_status]: the recovery record is
    logged, the subscript raises, and the entity stays unavailable, so the
    next successful poll logs the record again. *)
Example recovery_without_presence_status :
  let r := polls sample_CONF_ID [Fetched [("id", VStr "AbC")];
                                 Fetched [("id", VStr "AbC")]] unreachable in
  available (final_state r) = false
  /\ count is_recovery_log (trace r) = 2.
Proof. split; reflexivity. Qed.

(** [_restore_state] stores the persisted state as it is: a persisted text
    reads as on whatever it says. *)
Example restore_text_state :
  let r := _restore_state (Some {| state := VStr "off" |}) fresh in
  is_on (final_state r) = VStr "off" /\ icon (final_state r) = "mdi:video".
Proof. split; reflexivity. Qed.

(** C1, as stated, fails for the empty status string when the connected
    statuses contain it: [S] is non-null and a member of [C], yet [is_on] is
    the empty string, which is neither [True] nor truthy.  For the null status
    [is_on] is [None], not [False]. *)
Lemma set_state_empty_status_not_membership :
  let s := init ZoomAuthenticatedUserBinarySensor statuses_with_empty None in
  let S := VStr "" in
  let C := options_on_statuses (_config_entry s) in
  let s' := final_state (_set_state S s) in
  ~ (S <> VNone -> is_on s' = VBool (py_in S C))
  /\ is_on s' = VStr ""
  /\ py_in S C = true
  /\ truthy (is_on s') = false
  /\ is_on (final_state (_set_state VNone s)) = VNone.
Proof.
  simpl. repeat split.
  intros H. assert (E : VStr "" = VBool true) by (apply H; discriminate).
  discriminate E.
Qed.

(** ** The theorems at concrete inputs *)

(** Three failed polls, then two successful ones, starting available: one
    warning and one recovery record. *)
Lemma availability_edge_triggered_run :
  let os := [FetchFails OtherError; FetchFails OtherError; FetchFails OtherError;
             Fetched in_meeting; Fetched in_meeting] in
  id_resolvable_throughout sample_CONF_ID fresh os = true
  /\ forallb has_presence_status os = true
  /\ count is_warning_log (trace (polls sample_CONF_ID os fresh)) = 1
  /\ count is_recovery_log (trace (polls sample_CONF_ID os fresh)) = 1.
Proof.
  cbv zeta. split; [reflexivity | split; [reflexivity |]].
  split.
  - apply (availability_edge_triggered sample_CONF_ID); reflexivity.
  - apply (availability_edge_triggered sample_CONF_ID); reflexivity.
Defined.

Lemma event_mismatch_is_noop_run :
  let status := presence_event "entry-1" "someone-else" "Away" in
  let r := async_event_received sample_CONF_ID sample_ATTR_EVENT
             sample_CONNECTIVITY_EVENT sample_CONNECTIVITY_ID
             sample_CONNECTIVITY_STATUS ascii_lower status fresh in
  final_state r = fresh /\ trace r = [].
Proof.
  cbv zeta. split.
  - apply (event_mismatch_is_noop sample_CONF_ID sample_ATTR_EVENT
             sample_CONNECTIVITY_EVENT sample_CONNECTIVITY_ID
             sample_CONNECTIVITY_STATUS ascii_lower).
    right. right. intros a b Ha Hb.
    injection Ha as <-. injection Hb as <-. discriminate.
  - apply (event_mismatch_is_noop sample_CONF_ID sample_ATTR_EVENT
             sample_CONNECTIVITY_EVENT sample_CONNECTIVITY_ID
             sample_CONNECTIVITY_STATUS ascii_lower).
    right. right. intros a b Ha Hb.
    injection Ha as <-. injection Hb as <-. discriminate.
Defined.

(** The identity of the event is matched without regard to case, and the
    event is applied while the entity is unavailable. *)
Lemma event_match_sets_state_run :
  let status := presence_event "entry-1" "abc" "In Meeting" in
  let r := async_event_received sample_CONF_ID sample_ATTR_EVENT
             sample_CONNECTIVITY_EVENT sample_CONNECTIVITY_ID
             sample_CONNECTIVITY_STATUS ascii_lower status unreachable in
  _zoom_event_state (final_state r) = VStr "In Meeting"
  /\ available (final_state r) = false.
Proof.
  cbv zeta. split.
  - apply (event_match_sets_state sample_CONF_ID sample_ATTR_EVENT
             sample_CONNECTIVITY_EVENT sample_CONNECTIVITY_ID
             sample_CONNECTIVITY_STATUS ascii_lower _ "abc" "AbC");
      reflexivity.
  - apply (event_match_sets_state sample_CONF_ID sample_ATTR_EVENT
             sample_CONNECTIVITY_EVENT sample_CONNECTIVITY_ID
             sample_CONNECTIVITY_STATUS ascii_lower _ "abc" "AbC"
             (VStr "In Meeting"));
      reflexivity.
Defined.

Lemma poll_recovers_run :
  let r := _async_update sample_CONF_ID (Fetched in_meeting) unreachable in
  truthy (id sample_CONF_ID unreachable) = true
  /\ available unreachable = false
  /\ dict_get in_meeting "presence_status" = Some (VStr "In Meeting")
  /\ available (final_state r) = true
  /\ _zoom_event_state (final_state r) = VStr "In Meeting"
  /\ count is_recovery_log (trace r) = 1
  /\ count is_state_write (trace r) = 1.
Proof.
  cbv zeta. repeat (split; [reflexivity |]).
  pose proof (poll_recovers sample_CONF_ID in_meeting (VStr "In Meeting")
                unreachable eq_refl eq_refl eq_refl) as H.
  cbv zeta in H. intuition.
Defined.

Lemma steady_poll_keeps_status_run :
  let r := _async_update sample_CONF_ID (Fetched in_meeting) fresh in
  available fresh = true
  /\ _zoom_event_state (final_state r) = VNone
  /\ is_on (final_state r) = VBool false
  /\ count is_state_write (trace r) = 0.
Proof.
  cbv zeta. split; [reflexivity |].
  pose proof (steady_poll_keeps_status sample_CONF_ID in_meeting fresh eq_refl)
    as H.
  cbv zeta in H. intuition.
Defined.

Lemma bootstrap_unresolved_id_run :
  let r := async_added_to_hass sample_CONF_ID (Fetched in_meeting)
             persisted_on nameless in
  truthy (id sample_CONF_ID nameless) = false
  /\ count is_fetch (trace r) = 0
  /\ final_state r = set_is_on (VBool true) nameless.
Proof.
  cbv zeta. split; [reflexivity |].
  pose proof (bootstrap_unresolved_id sample_CONF_ID (Fetched in_meeting)
                persisted_on nameless eq_refl) as H.
  cbv zeta in H. intuition.
Defined.

Lemma bootstrap_unauthorized_run :
  let r := async_added_to_hass sample_CONF_ID (FetchFails HTTPUnauthorized)
             persisted_on fresh in
  truthy (id sample_CONF_ID fresh) = true
  /\ final_state r = set_is_on (VBool true) fresh
  /\ available (final_state r) = true.
Proof.
  cbv zeta. split; [reflexivity |].
  pose proof (bootstrap_unauthorized sample_CONF_ID persisted_on fresh
                ZoomAuthenticatedUserBinarySensor home None eq_refl) as H.
  cbv zeta in H. intuition.
Defined.

Lemma poll_replaces_profile_run :
  let s' := final_state (_async_update sample_CONF_ID (Fetched renamed_profile) ann) in
  truthy (id sample_CONF_ID ann) = true
  /\ available ann = true
  /\ _profile s' = Some renamed_profile
  /\ s' = set_profile (Some renamed_profile) ann.
Proof.
  cbv zeta. split; [reflexivity | split; [reflexivity |]].
  pose proof (poll_replaces_profile sample_CONF_ID renamed_profile ann eq_refl)
    as H.
  cbv zeta in H. destruct H as (H1 & H2 & _). split; [exact H1 |].
  apply H2. reflexivity.
Defined.

(** ** The further properties at concrete inputs *)

Local Abbreviation sample_event_received :=
  (async_event_received sample_CONF_ID sample_ATTR_EVENT
     sample_CONNECTIVITY_EVENT sample_CONNECTIVITY_ID
     sample_CONNECTIVITY_STATUS ascii_lower).

Local Abbreviation sample_run :=
  (run sample_CONF_ID sample_ATTR_EVENT sample_CONNECTIVITY_EVENT
     sample_CONNECTIVITY_ID sample_CONNECTIVITY_STATUS ascii_lower).

Lemma get_data_from_path_missing_key_run :
  dict_get [("event", VStr "user.presence_status_updated")] "payload" = None
  /\ get_data_from_path
       (VDict [("event", VStr "user.presence_status_updated")])
       sample_CONNECTIVITY_ID = Ok VNone.
Proof.
  split; [reflexivity |].
  apply (get_data_from_path_missing_key
           [("event", VStr "user.presence_status_updated")] "payload"
           ["object"; "id"]).
  reflexivity.
Defined.

Lemma get_data_from_path_through_non_dict_run :
  dict_get [("payload", VNone)] "payload" = Some VNone
  /\ is_dict VNone = false
  /\ get_data_from_path (VDict [("payload", VNone)]) sample_CONNECTIVITY_ID
     = Raise AttributeError.
Proof.
  split; [reflexivity | split; [reflexivity |]].
  apply (get_data_from_path_through_non_dict [("payload", VNone)]
           "payload" "object" ["id"] VNone); reflexivity.
Defined.

Lemma get_data_from_path_sibling_run :
  let data := VDict (presence_event "entry-1" "abc" "Away") in
  get_data_from_path data (["payload"; "object"] ++ ["id"]) = Ok (VStr "abc")
  /\ exists v,
       get_data_from_path data (["payload"; "object"] ++ ["presence_status"])
       = Ok v.
Proof.
  cbv zeta. split; [reflexivity |].
  apply (get_data_from_path_sibling _ ["payload"; "object"] "id"
           "presence_status" "abc").
  reflexivity.
Defined.

Lemma set_state_on_only_if_connected_run :
  truthy (is_on (final_state (_set_state (VStr "In Meeting") fresh))) = true
  /\ exists c, VStr "In Meeting" = VStr c /\ c <> ""
               /\ In c (options_on_statuses (_config_entry fresh)).
Proof.
  split; [reflexivity |].
  apply (set_state_on_only_if_connected (VStr "In Meeting") fresh).
  reflexivity.
Defined.

Lemma poll_unresolved_id_is_noop_run :
  truthy (id sample_CONF_ID nameless) = false
  /\ _async_update sample_CONF_ID (Fetched in_meeting) nameless
     = (nameless, [], Ok tt).
Proof.
  split; [reflexivity |].
  apply (poll_unresolved_id_is_noop sample_CONF_ID (Fetched in_meeting)
           nameless).
  reflexivity.
Defined.

Lemma recovery_without_status_repeats_run :
  let p := [("id", VStr "AbC"); ("first_name", VStr "Ann")] in
  let r := polls sample_CONF_ID (repeat (Fetched p) 3) unreachable in
  dict_get p "presence_status" = None
  /\ available unreachable = false
  /\ truthy (id sample_CONF_ID unreachable) = true
  /\ truthy (id sample_CONF_ID (set_profile (Some p) unreachable)) = true
  /\ available (final_state r) = false
  /\ count is_recovery_log (trace r) = 3.
Proof.
  cbv zeta. do 4 (split; [reflexivity |]).
  pose proof (recovery_without_status_repeats sample_CONF_ID
                [("id", VStr "AbC"); ("first_name", VStr "Ann")] 3 unreachable
                eq_refl eq_refl eq_refl eq_refl) as H.
  cbv zeta in H. destruct H as (H1 & H2 & _). split; [exact H1 | exact H2].
Defined.

Lemma available_after_polls_run :
  let os := [FetchFails OtherError; Fetched in_meeting; FetchFails TypeError] in
  id_resolvable_throughout sample_CONF_ID fresh os = true
  /\ forallb has_presence_status os = true
  /\ available (final_state (polls sample_CONF_ID os fresh)) = false.
Proof.
  cbv zeta. split; [reflexivity | split; [reflexivity |]].
  apply (available_after_polls sample_CONF_ID
           [FetchFails OtherError; Fetched in_meeting; FetchFails TypeError]
           fresh); reflexivity.
Defined.

Lemma configured_id_always_resolvable_run :
  let os := [Fetched renamed_profile; FetchFails OtherError; Fetched []] in
  id_configured sample_CONF_ID fresh = true
  /\ id_resolvable_throughout sample_CONF_ID fresh os = true
  /\ id sample_CONF_ID (final_state (polls sample_CONF_ID os fresh))
     = id sample_CONF_ID fresh.
Proof.
  cbv zeta. split; [reflexivity |].
  apply (configured_id_always_resolvable sample_CONF_ID
           [Fetched renamed_profile; FetchFails OtherError; Fetched []] fresh).
  reflexivity.
Defined.

Lemma failed_polls_idempotent_run :
  let r := polls sample_CONF_ID
             [FetchFails OtherError; FetchFails TypeError;
              FetchFails HTTPUnauthorized] fresh in
  truthy (id sample_CONF_ID fresh) = true
  /\ final_state r = set_attr_available false fresh
  /\ count is_warning_log (trace r) = 1
  /\ count is_state_write (trace r) = 1.
Proof.
  cbv zeta. split; [reflexivity |].
  apply (failed_polls_idempotent sample_CONF_ID (FetchFails OtherError)
           [FetchFails TypeError; FetchFails HTTPUnauthorized] fresh);
    reflexivity.
Defined.

Lemma bootstrap_fetches_status_run :
  let r := async_added_to_hass sample_CONF_ID (Fetched in_meeting)
             persisted_on fresh in
  truthy (id sample_CONF_ID fresh) = true
  /\ dict_get in_meeting "presence_status" = Some (VStr "In Meeting")
  /\ _zoom_event_state (final_state r) = VStr "In Meeting"
  /\ count is_get_last_state (trace r) = 0.
Proof.
  cbv zeta. split; [reflexivity | split; [reflexivity |]].
  pose proof (bootstrap_fetches_status sample_CONF_ID in_meeting
                (VStr "In Meeting") persisted_on fresh eq_refl eq_refl) as H.
  cbv zeta in H. destruct H as (_ & H2 & _ & _ & H5 & _).
  split; [exact H2 | exact H5].
Defined.

Lemma bootstrap_fetch_error_run :
  let r := async_added_to_hass sample_CONF_ID (FetchFails OtherError)
             persisted_on fresh in
  truthy (id sample_CONF_ID fresh) = true
  /\ OtherError <> HTTPUnauthorized
  /\ final_state r = set_is_on (VBool true) fresh
  /\ count is_state_write (trace r) = 0.
Proof.
  cbv zeta. split; [reflexivity | split; [discriminate |]].
  assert (He : OtherError <> HTTPUnauthorized) by discriminate.
  pose proof (bootstrap_fetch_error sample_CONF_ID OtherError persisted_on
                fresh eq_refl He) as H.
  cbv zeta in H. destruct H as (H1 & _ & H3 & _).
  split; [exact H1 | exact H3].
Defined.

Lemma bootstrap_profile_without_status_run :
  let p := [("id", VStr "AbC"); ("first_name", VStr "Ann")] in
  let r := async_added_to_hass sample_CONF_ID (Fetched p) persisted_on fresh in
  truthy (id sample_CONF_ID fresh) = true
  /\ dict_get p "presence_status" = None
  /\ _profile (final_state r) = Some p
  /\ is_on (final_state r) = VBool true
  /\ _zoom_event_state (final_state r) = VNone.
Proof.
  cbv zeta. split; [reflexivity | split; [reflexivity |]].
  pose proof (bootstrap_profile_without_status sample_CONF_ID
                [("id", VStr "AbC"); ("first_name", VStr "Ann")] persisted_on
                fresh eq_refl eq_refl) as H.
  cbv zeta in H. destruct H as (H1 & H2 & H3 & _).
  split; [exact H2 | split; [now rewrite H1 | exact H3]].
Defined.

Lemma bootstrap_nothing_to_restore_run :
  succeeds (FetchFails OtherError) = false
  /\ final_state (async_added_to_hass sample_CONF_ID (FetchFails OtherError)
                    None fresh) = fresh.
Proof.
  split; [reflexivity |].
  apply (bootstrap_nothing_to_restore sample_CONF_ID (FetchFails OtherError)
           fresh).
  right. reflexivity.
Defined.

Lemma event_raise_has_no_effect_run :
  let r := sample_event_received [("event", VStr "user.presence_status_updated")]
             fresh in
  outcome r = Raise (KeyError "ha_config_entry_id")
  /\ final_state r = fresh
  /\ trace r = [].
Proof.
  cbv zeta. split; [reflexivity |].
  pose proof (event_raise_has_no_effect sample_CONF_ID sample_ATTR_EVENT
                sample_CONNECTIVITY_EVENT sample_CONNECTIVITY_ID
                sample_CONNECTIVITY_STATUS ascii_lower
                [("event", VStr "user.presence_status_updated")] fresh
                (KeyError "ha_config_entry_id") eq_refl) as H.
  destruct H as (H1 & H2 & _). split; [exact H1 | exact H2].
Defined.

Lemma event_without_entry_id_raises_run :
  dict_get [("event", VStr "user.presence_status_updated")]
    "ha_config_entry_id" = None
  /\ sample_event_received [("event", VStr "user.presence_status_updated")]
       unreachable
     = (unreachable, [], Raise (KeyError "ha_config_entry_id")).
Proof.
  split; [reflexivity |].
  apply (event_without_entry_id_raises sample_CONF_ID sample_ATTR_EVENT
           sample_CONNECTIVITY_EVENT sample_CONNECTIVITY_ID
           sample_CONNECTIVITY_STATUS ascii_lower).
  reflexivity.
Defined.

Lemma event_other_entry_dropped_run :
  let status := [("ha_config_entry_id", VStr "entry-9"); ("payload", VNone)] in
  dict_get status "ha_config_entry_id" = Some (VStr "entry-9")
  /\ VStr "entry-9" <> VStr (entry_id (_config_entry fresh))
  /\ sample_event_received status fresh = (fresh, [], Ok tt).
Proof.
  cbv zeta. split; [reflexivity | split; [discriminate |]].
  apply (event_other_entry_dropped sample_CONF_ID sample_ATTR_EVENT
           sample_CONNECTIVITY_EVENT sample_CONNECTIVITY_ID
           sample_CONNECTIVITY_STATUS ascii_lower _ (VStr "entry-9"));
    [reflexivity | discriminate].
Defined.

(** The id of the entity is unresolved and the event is otherwise its own. *)
Lemma event_without_string_ids_raises_run :
  let status := presence_event "entry-2" "abc" "Away" in
  id sample_CONF_ID nameless = VNone
  /\ get_data_from_path (VDict status) sample_CONNECTIVITY_ID = Ok (VStr "abc")
  /\ sample_event_received status nameless
     = (nameless, [], Raise AttributeError).
Proof.
  cbv zeta. split; [reflexivity | split; [reflexivity |]].
  apply (event_without_string_ids_raises sample_CONF_ID sample_ATTR_EVENT
           sample_CONNECTIVITY_EVENT sample_CONNECTIVITY_ID
           sample_CONNECTIVITY_STATUS ascii_lower _ (VStr "abc"));
    reflexivity.
Defined.

Lemma run_reads_on_iff_connected_run :
  let cs := [TimerFired (FetchFails OtherError);
             EventReceived (presence_event "entry-1" "ABC" "In Meeting");
             OptionsUpdated; TimerFired (Fetched renamed_profile)] in
  reads_on_iff_connected fresh = true
  /\ reads_on_iff_connected (fst (sample_run cs fresh)) = true
  /\ is_on (fst (sample_run cs fresh)) = VBool false.
Proof.
  cbv zeta. split; [reflexivity | split; [| reflexivity]].
  apply (run_reads_on_iff_connected sample_CONF_ID sample_ATTR_EVENT
           sample_CONNECTIVITY_EVENT sample_CONNECTIVITY_ID
           sample_CONNECTIVITY_STATUS ascii_lower).
  reflexivity.
Defined.

Lemma run_without_timer_keeps_available_run :
  let cs := [EventReceived (presence_event "entry-1" "abc" "In Meeting");
             OptionsUpdated; EventReceived []] in
  forallb (fun c => negb (is_timer c)) cs = true
  /\ available (fst (sample_run cs unreachable)) = false
  /\ _zoom_event_state (fst (sample_run cs unreachable)) = VStr "In Meeting".
Proof.
  cbv zeta. split; [reflexivity | split; [| reflexivity]].
  apply (run_without_timer_keeps_available sample_CONF_ID sample_ATTR_EVENT
           sample_CONNECTIVITY_EVENT sample_CONNECTIVITY_ID
           sample_CONNECTIVITY_STATUS ascii_lower
           [EventReceived (presence_event "entry-1" "abc" "In Meeting");
            OptionsUpdated; EventReceived []] unreachable).
  reflexivity.
Defined.
